(** * DEX wallet reputation scoring: model and properties

    A shallow embedding of [app/models/dex_model.py] (class [DexModel]) and of
    the consume loop of [app/services/kafka_service.py].

    Conventions of the embedding.
    - A Python [float] is an exact rational ([Q]); rounding, NaN and the
      infinities are outside the model.  A Python [int] is a [Z].
    - A JSON object member read with [dict.get] is a [field]: the key may be
      absent, present with [null], or present with a value.
    - A [pandas.DataFrame] built from a list of row dictionaries is the list
      of rows; a cell whose key the row dictionary lacks (NaN) or whose value
      is [None] is [None].
    - Clock readings ([time.time()], [datetime.now()]) are explicit inputs.
    - A raised exception is the [Raise] outcome of a [result]. *)

From Stdlib Require Import ZArith QArith Qminmax Lqa Lia List String Ascii Bool.
From Stdlib Require Import Qabs DecimalString Sorted Permutation.
Import ListNotations.
Open Scope string_scope.
Open Scope Z_scope.
Open Scope Q_scope.

(** ** Exceptions as results *)

Inductive result (A : Type) : Type :=
| Ok (a : A)
| Raise (msg : string).
Arguments Ok {A} a.
Arguments Raise {A} msg.

Definition bind {A B : Type} (m : result A) (k : A -> result B) : result B :=
  match m with
  | Ok a => k a
  | Raise e => Raise e
  end.

Notation "x <- m ;; k" := (bind m (fun x => k))
  (at level 61, m at next level, right associativity).

(** Python's [a / b] on floats: raises [ZeroDivisionError] on a zero divisor. *)
Definition py_div (a b : Q) : result Q :=
  if Qeq_bool b 0 then Raise "float division by zero" else Ok (a / b).

(** Python's [int(x)] on a float: truncation toward zero. *)
Definition py_int (x : Q) : Z := Z.quot (Qnum x) (Zpos (Qden x)).

Definition Qltb (a b : Q) : bool := negb (Qle_bool b a).

(** ** Inbound message *)

Inductive field (A : Type) : Type :=
| Absent
| Null
| Val (a : A).
Arguments Absent {A}.
Arguments Null {A}.
Arguments Val {A} a.

(** [d.get(k)]: [None] when the key is absent or holds [null]. *)
Definition get {A : Type} (f : field A) : option A :=
  match f with
  | Val a => Some a
  | _ => None
  end.

(** [d.get(k, default)]: the default replaces an absent key only. *)
Definition get_default {A : Type} (f : field A) (default : A) : option A :=
  match f with
  | Absent => Some default
  | Null => None
  | Val a => Some a
  end.

Record TokenAmount : Type := mkTokenAmount {
  amountUSD : field Q;
  symbol : field string
}.

Record DexTransaction : Type := mkDexTransaction {
  document_id : field string;
  action : field string;
  timestamp : Z;
  protocol : field string;
  poolId : field string;
  poolName : field string;
  tokenIn : field TokenAmount;
  tokenOut : field TokenAmount;
  token0 : field TokenAmount;
  token1 : field TokenAmount
}.

Record ProtocolData : Type := mkProtocolData {
  protocolType : field string;
  transactions : list DexTransaction
}.

Record WalletMessage : Type := mkWalletMessage {
  wallet_address : field string;
  data : list ProtocolData
}.

(** ** Normalized rows *)

Record Row : Type := mkRow {
  row_wallet_address : option string;
  row_document_id : option string;
  row_action : option string;
  row_timestamp : Z;
  row_protocol : option string;
  row_pool_id : option string;
  row_pool_name : option string;
  row_amount_usd : option Q;
  row_token_in_symbol : option string;
  row_token_out_symbol : option string;
  row_token0_symbol : option string;
  row_token1_symbol : option string
}.

Definition DataFrame : Type := list Row.

(** [df.empty] *)
Definition empty (df : DataFrame) : bool :=
  match df with
  | [] => true
  | _ :: _ => false
  end.

(** [tx.get(k, {}) or {}] *)
Definition token_or_empty (f : field TokenAmount) : TokenAmount :=
  match f with
  | Val t => t
  | _ => mkTokenAmount Absent Absent
  end.

(** [float(tok.get("amountUSD", 0.0) or 0.0)] *)
Definition amount_usd_of (tok : TokenAmount) : Q :=
  match amountUSD tok with
  | Val q => q
  | _ => 0
  end.

Definition action_is (name : string) (a : option string) : bool :=
  match a with
  | Some s => String.eqb s name
  | None => false
  end.

Definition preprocess_row (wallet : option string) (tx : DexTransaction) : Row :=
  let act := get (action tx) in
  let base (amt : option Q) (tin tout t0 t1 : option string) :=
    mkRow wallet (get (document_id tx)) act (timestamp tx)
          (get_default (protocol tx) "") (get_default (poolId tx) "")
          (get_default (poolName tx) "") amt tin tout t0 t1 in
  if action_is "swap" act then
    let token_in := token_or_empty (tokenIn tx) in
    let token_out := token_or_empty (tokenOut tx) in
    base (Some (Qmax (amount_usd_of token_in) (amount_usd_of token_out)))
         (get_default (symbol token_in) "") (get_default (symbol token_out) "")
         None None
  else if action_is "deposit" act || action_is "withdraw" act then
    let tok0 := token_or_empty (token0 tx) in
    let tok1 := token_or_empty (token1 tx) in
    base (Some (amount_usd_of tok0 + amount_usd_of tok1))
         None None
         (get_default (symbol tok0) "") (get_default (symbol tok1) "")
  else
    base None None None None None.

Definition is_dexes (c : ProtocolData) : bool :=
  action_is "dexes" (get (protocolType c)).

(** The derived [datetime] column is for display only and no later stage reads
    it; the frame is the list of rows in input order. *)
Definition preprocess_dex_transactions (wallet_data : WalletMessage) : DataFrame :=
  flat_map
    (fun category_data =>
       if is_dexes category_data
       then map (preprocess_row (get (wallet_address wallet_data)))
                (transactions category_data)
       else [])
    (data wallet_data).

(** ** Column helpers *)

(** [df[df["action"] == name]] *)
Definition with_action (name : string) (df : DataFrame) : DataFrame :=
  filter (fun r => action_is name (row_action r)) df.

(** [df["amount_usd"].sum()]: missing cells are skipped. *)
Fixpoint sum_amount_usd (df : DataFrame) : Q :=
  match df with
  | [] => 0
  | r :: rest =>
      match row_amount_usd r with
      | Some q => q + sum_amount_usd rest
      | None => sum_amount_usd rest
      end
  end.

Definition len (df : DataFrame) : Z := Z.of_nat (List.length df).

(** [df["timestamp"].min()] and [.max()] on a frame with at least one row. *)
Definition timestamp_min (first : Row) (rest : DataFrame) : Z :=
  fold_right (fun r m => Z.min (row_timestamp r) m) (row_timestamp first) rest.

Definition timestamp_max (first : Row) (rest : DataFrame) : Z :=
  fold_right (fun r m => Z.max (row_timestamp r) m) (row_timestamp first) rest.

(** [series.dropna()] *)
Fixpoint dropna {A : Type} (l : list (option A)) : list A :=
  match l with
  | [] => []
  | Some a :: rest => a :: dropna rest
  | None :: rest => dropna rest
  end.

(** [set(series.dropna())] as a duplicate-free list. *)
Definition distinct (l : list (option string)) : list string :=
  nodup string_dec (dropna l).

(** [df["pool_id"].nunique()]: distinct non-null values. *)
Definition nunique_pool_id (df : DataFrame) : Z :=
  Z.of_nat (List.length (distinct (map row_pool_id df))).

Fixpoint Qsum (l : list Q) : Q :=
  match l with
  | [] => 0
  | x :: rest => x + Qsum rest
  end.

(** [np.mean] of a list. *)
Definition mean (l : list Q) : Q :=
  Qsum l / inject_Z (Z.of_nat (List.length l)).

(** ** LP features and score *)

Definition holding_time_days (current_time : Q) (withdraws : DataFrame) (deposit : Row) : Q :=
  let deposit_time := inject_Z (row_timestamp deposit) in
  let future_withdraws :=
    filter (fun w => Qltb deposit_time (inject_Z (row_timestamp w))) withdraws in
  match future_withdraws with
  | w :: ws =>
      let withdraw_time := inject_Z (timestamp_min w ws) in
      (withdraw_time - deposit_time) / 86400
  | [] => (current_time - deposit_time) / 86400
  end.

(** [current_time] is the reading of [datetime.now().timestamp()]. *)
Definition calculate_holding_time (current_time : Q) (deposits withdraws : DataFrame) : Q :=
  if empty deposits then 0
  else
    let holding_times := map (holding_time_days current_time withdraws) deposits in
    match holding_times with
    | [] => 0
    | _ :: _ => mean holding_times
    end.

Record LPFeatures : Type := mkLPFeatures {
  total_deposit_usd : Q;
  total_withdraw_usd : Q;
  num_deposits : Z;
  num_withdraws : Z;
  withdraw_ratio : Q;
  avg_hold_time_days : Q;
  account_age_days : Q;
  unique_pools : Z
}.

(** The returned dictionary is [{}] ([None]) for an empty frame. *)
Definition calculate_lp_features (current_time : Q) (df : DataFrame)
  : result (option LPFeatures) :=
  match df with
  | [] => Ok None
  | first :: rest =>
      let deposits := with_action "deposit" df in
      let withdraws := with_action "withdraw" df in
      let total_deposit_usd := if empty deposits then 0 else sum_amount_usd deposits in
      let total_withdraw_usd := if empty withdraws then 0 else sum_amount_usd withdraws in
      let num_deposits := len deposits in
      let num_withdraws := len withdraws in
      withdraw_ratio <-
        (if Qltb 0 total_deposit_usd
         then py_div total_withdraw_usd total_deposit_usd
         else Ok 0) ;;
      let account_age_days :=
        (inject_Z (timestamp_max first rest) - inject_Z (timestamp_min first rest)) / 86400 in
      let avg_hold_time_days := calculate_holding_time current_time deposits withdraws in
      let unique_pools := nunique_pool_id df in
      Ok (Some (mkLPFeatures total_deposit_usd total_withdraw_usd num_deposits
                             num_withdraws withdraw_ratio avg_hold_time_days
                             account_age_days unique_pools))
  end.

Record LPBreakdown : Type := mkLPBreakdown {
  lp_volume_score : Q;
  lp_frequency_score : Q;
  lp_retention_score : Q;
  lp_holding_score : Q;
  lp_diversity_score : Q;
  total_lp_score : Q
}.

Definition calculate_lp_score (features : option LPFeatures) : Q * option LPBreakdown :=
  match features with
  | None => (0, None)
  | Some f =>
      let volume_score := Qmin (total_deposit_usd f / 10000 * 300) 300 in
      let frequency_score := Qmin (inject_Z (num_deposits f) * 20) 200 in
      let retention_score := Qmax 0 ((1 - withdraw_ratio f) * 250) in
      let holding_score := Qmin (avg_hold_time_days f / 30 * 150) 150 in
      let diversity_score := Qmin (inject_Z (unique_pools f) * 20) 100 in
      let total :=
        volume_score + frequency_score + retention_score + holding_score + diversity_score in
      (total, Some (mkLPBreakdown volume_score frequency_score retention_score
                                  holding_score diversity_score total))
  end.

(** ** Swap features and score *)

Definition stable_tokens : list string :=
  ["USDC"; "USDT"; "DAI"; "LUSD"; "USDP"; "TUSD"; "FRAX"].

Definition mem_string (s : string) (l : list string) : bool :=
  existsb (String.eqb s) l.

Definition _token_diversity (swaps : DataFrame) : Z :=
  if empty swaps then 0%Z
  else
    let tokens_in := distinct (map row_token_in_symbol swaps) in
    let tokens_out := distinct (map row_token_out_symbol swaps) in
    let all_tokens := nodup string_dec (tokens_in ++ tokens_out) in
    let stable_count :=
      Z.of_nat (List.length (filter (fun t => mem_string t stable_tokens) all_tokens)) in
    let volatile_count := (Z.of_nat (List.length all_tokens) - stable_count)%Z in
    let diversity_score := (stable_count * 10 + volatile_count * 15)%Z in
    Z.min diversity_score 150.

(** [sort_values("timestamp")], restricted to the column read afterwards. *)
Fixpoint insert_sorted (x : Z) (l : list Z) : list Z :=
  match l with
  | [] => [x]
  | y :: rest => if (x <=? y)%Z then x :: l else y :: insert_sorted x rest
  end.

Fixpoint sort_timestamps (l : list Z) : list Z :=
  match l with
  | [] => []
  | x :: rest => insert_sorted x (sort_timestamps rest)
  end.

(** [series.diff().dropna()]: differences of consecutive entries. *)
Fixpoint diff (l : list Z) : list Z :=
  match l with
  | x :: ((y :: _) as rest) => (y - x)%Z :: diff rest
  | _ => []
  end.

Definition _swap_frequency (swaps : DataFrame) : Q :=
  if empty swaps || (len swaps <? 2)%Z then 0
  else
    let srt := sort_timestamps (map row_timestamp swaps) in
    let diffs := diff srt in
    let hours := map (fun d => inject_Z d / 3600) diffs in
    let avg := mean hours in
    if Qle_bool avg 1 then 100
    else if Qle_bool avg 24 then 80
    else if Qle_bool avg 168 then 60
    else if Qle_bool avg 720 then 40
    else 20.

Record SwapFeatures : Type := mkSwapFeatures {
  total_swap_volume : Q;
  num_swaps : Z;
  unique_pools_swapped : Z;
  avg_swap_size : Q;
  token_diversity_score : Z;
  swap_frequency_score : Q
}.

Definition calculate_swap_features (df : DataFrame) : result (option SwapFeatures) :=
  if empty df then Ok None
  else
    let swaps := with_action "swap" df in
    if empty swaps then Ok (Some (mkSwapFeatures 0 0 0 0 0 0))
    else
      let total_swap_volume := sum_amount_usd swaps in
      let num_swaps := len swaps in
      let unique_pools_swapped := nunique_pool_id swaps in
      avg_swap_size <-
        (if (0 <? num_swaps)%Z
         then py_div total_swap_volume (inject_Z num_swaps)
         else Ok 0) ;;
      let token_diversity_score := _token_diversity swaps in
      let swap_frequency_score := _swap_frequency swaps in
      Ok (Some (mkSwapFeatures total_swap_volume num_swaps unique_pools_swapped
                               avg_swap_size token_diversity_score swap_frequency_score)).

Record SwapBreakdown : Type := mkSwapBreakdown {
  swap_volume_score : Q;
  swap_frequency_component : Q;
  swap_diversity_score : Q;
  swap_activity_score : Q;
  swap_pool_diversity_score : Q;
  total_swap_score : Q
}.

Definition calculate_swap_score (features : option SwapFeatures) : Q * option SwapBreakdown :=
  match features with
  | None => (0, None)
  | Some f =>
      let volume_score := Qmin (total_swap_volume f / 50000 * 250) 250 in
      let frequency_score := Qmin (inject_Z (num_swaps f) * 10) 200 in
      let diversity_score := inject_Z (token_diversity_score f) in
      let activity_score := swap_frequency_score f in
      let pool_diversity_score := Qmin (inject_Z (unique_pools_swapped f) * 25) 100 in
      let total :=
        volume_score + frequency_score + diversity_score + activity_score
        + pool_diversity_score in
      (total, Some (mkSwapBreakdown volume_score frequency_score diversity_score
                                    activity_score pool_diversity_score total))
  end.

(** ** Tags, composition, pipeline *)

(** [features.get(key, 0)] on a dictionary that is either [{}] or complete. *)
Definition feature_or_0 {F : Type} (key : F -> Q) (features : option F) : Q :=
  match features with
  | Some f => key f
  | None => 0
  end.

Definition int_feature_or_0 {F : Type} (key : F -> Z) (features : option F) : Z :=
  match features with
  | Some f => key f
  | None => 0%Z
  end.

Definition lp_level_tag (td : Q) : list string :=
  if Qltb 100000 td then ["Whale LP"]
  else if Qltb 10000 td then ["Large LP"]
  else if Qltb 1000 td then ["Medium LP"]
  else if Qltb 0 td then ["Small LP"]
  else [].

Definition holding_tag (ht : Q) : list string :=
  if Qltb 90 ht then ["Long-term Holder"]
  else if Qltb 30 ht then ["Medium-term Holder"]
  else if Qltb 0 ht then ["Short-term Holder"]
  else [].

Definition swap_volume_tag (sv : Q) : list string :=
  if Qltb 500000 sv then ["Whale Trader"]
  else if Qltb 50000 sv then ["Large Trader"]
  else if Qltb 5000 sv then ["Active Trader"]
  else if Qltb 0 sv then ["Casual Trader"]
  else [].

Definition frequency_tag (n : Z) : list string :=
  if (100 <? n)%Z then ["High Frequency Trader"]
  else if (20 <? n)%Z then ["Regular Trader"]
  else [].

Definition diversity_tag (token_diversity pools : Z) : list string :=
  if (100 <? token_diversity)%Z then ["Diversified Trader"]
  else if (3 <? pools)%Z then ["Multi-Pool LP"]
  else [].

(** The five [if]/[elif] chains append to [tags] in this order. *)
Definition generate_user_tags (lp_features : option LPFeatures)
           (swap_features : option SwapFeatures) : list string :=
  lp_level_tag (feature_or_0 total_deposit_usd lp_features)
  ++ holding_tag (feature_or_0 avg_hold_time_days lp_features)
  ++ swap_volume_tag (feature_or_0 total_swap_volume swap_features)
  ++ frequency_tag (int_feature_or_0 num_swaps swap_features)
  ++ diversity_tag (int_feature_or_0 token_diversity_score swap_features)
                   (int_feature_or_0 unique_pools lp_features).

(** The merged mapping [{**lp_features, **swap_features, ...}]; the two
    feature dictionaries share no key, so both are kept whole. *)
Record CompleteFeatures : Type := mkCompleteFeatures {
  cf_lp_features : option LPFeatures;
  cf_swap_features : option SwapFeatures;
  user_tags : list string;
  lp_score : Q;
  swap_score : Q;
  final_score : Q;
  score_breakdown : option (option LPBreakdown * option SwapBreakdown)
}.

Definition lp_weight : Q := 6 # 10.
Definition swap_weight : Q := 4 # 10.

Definition calculate_final_score (lp_score swap_score : Q)
           (lp_features : option LPFeatures) (swap_features : option SwapFeatures)
  : Q * CompleteFeatures :=
  let final_score := lp_score * lp_weight + swap_score * swap_weight in
  let user_tags := generate_user_tags lp_features swap_features in
  (final_score,
   mkCompleteFeatures lp_features swap_features user_tags lp_score swap_score
                      final_score None).

(** The second component of [process_wallet_complete]: either the dictionary
    [{"error": msg}] or the complete features. *)
Inductive Features : Type :=
| ErrorFeatures (error : string)
| Complete (features : CompleteFeatures).

(** [complete_features["score_breakdown"] = {...}] *)
Definition set_score_breakdown (cf : CompleteFeatures)
           (breakdown : option LPBreakdown * option SwapBreakdown) : CompleteFeatures :=
  mkCompleteFeatures (cf_lp_features cf) (cf_swap_features cf) (user_tags cf)
                     (lp_score cf) (swap_score cf) (final_score cf) (Some breakdown).

Definition process_wallet_complete (current_time : Q) (wallet_data : WalletMessage)
  : result (Q * Features * DataFrame) :=
  let df := preprocess_dex_transactions wallet_data in
  if empty df then Ok (0, ErrorFeatures "No valid transactions found", df)
  else
    lp_features <- calculate_lp_features current_time df ;;
    let '(lp_score, lp_breakdown) := calculate_lp_score lp_features in
    swap_features <- calculate_swap_features df ;;
    let '(swap_score, swap_breakdown) := calculate_swap_score swap_features in
    let '(final_score, complete_features) :=
      calculate_final_score lp_score swap_score lp_features swap_features in
    let complete_features :=
      set_score_breakdown complete_features (lp_breakdown, swap_breakdown) in
    Ok (final_score, Complete complete_features, df).

(** ** Payload builders *)

#[local] Unset Elimination Schemes.
Inductive json : Type :=
| JNone
| JStr (s : string)
| JInt (z : Z)
| JFloat (q : Q)
| JList (items : list json)
| JDict (members : list (string * json)).
#[local] Set Elimination Schemes.

(** A payload is a dictionary with string keys, in insertion order. *)
Definition Payload : Type := list (string * json).

(** [key in payload] *)
Definition has_key (key : string) (payload : Payload) : bool :=
  existsb (fun kv => String.eqb (fst kv) key) payload.

(** Truth value of a payload slot: [{}] and [None] are both false. *)
Definition populated (slot : option Payload) : bool :=
  match slot with
  | Some (_ :: _) => true
  | _ => false
  end.

Definition round_half_even (x : Q) : Z :=
  let n := Qnum x in
  let d := Zpos (Qden x) in
  let q := (n / d)%Z in
  match (2 * (n mod d) ?= d)%Z with
  | Lt => q
  | Gt => (q + 1)%Z
  | Eq => if Z.even q then q else (q + 1)%Z
  end.

Definition decimal (n : Z) : string :=
  NilZero.string_of_uint (N.to_uint (Z.to_N n)).

Fixpoint zeros (n : nat) : string :=
  match n with
  | O => ""
  | S k => String "0" (zeros k)
  end.

(** [f"{z:.18f}"] *)
Definition format_18f (z : Q) : string :=
  let scaled := round_half_even (Qabs z * inject_Z (10 ^ 18)) in
  let whole := decimal (scaled / 10 ^ 18) in
  let frac := decimal (scaled mod 10 ^ 18) in
  (if Qltb z 0 then "-" else "")
  ++ whole ++ "." ++ zeros (18 - String.length frac) ++ frac.

(** Readings of the wall clock, in the order the code takes them: [t0] on
    entry, [datetime.now()] inside the holding-time computation, [time.time()]
    for [processing_ms], and [time.time()] where a timestamp falls back on
    the current time. *)
Record Clock : Type := mkClock {
  time_t0 : Q;
  datetime_now : Q;
  time_done : Q;
  time_fallback : Q
}.

Definition _choose_timestamp (clock : Clock) (df : DataFrame) : Z :=
  match df with
  | first :: rest => timestamp_min first rest
  | [] => py_int (inject_Z (py_int (time_fallback clock)))
  end.

Definition processing_ms (clock : Clock) : Z :=
  py_int ((time_done clock - time_t0 clock) * 1000).

Definition opt_str (s : option string) : json :=
  match s with
  | Some v => JStr v
  | None => JNone
  end.

(** Returns [(success_payload, failure_payload)]; the [try]/[except] is the
    match on the outcome of [process_wallet_complete]. *)
Definition process_wallet (clock : Clock) (wallet_data : WalletMessage)
  : Payload * option Payload :=
  let address := opt_str (get (wallet_address wallet_data)) in
  match process_wallet_complete (datetime_now clock) wallet_data with
  | Ok (z, ErrorFeatures error, df) =>
      let failure :=
        [ ("wallet_address", address);
          ("error", JStr error);
          ("timestamp", JInt (_choose_timestamp clock df));
          ("processing_time_ms", JInt (processing_ms clock));
          ("categories",
           JList [ JDict [ ("category", JStr "dexes");
                           ("error", JStr error);
                           ("transaction_count", JInt (len df)) ] ]) ] in
      ([], Some failure)
  | Ok (z, Complete features, df) =>
      let lp := cf_lp_features features in
      let sw := cf_swap_features features in
      let success :=
        [ ("wallet_address", address);
          ("zscore", JStr (format_18f z));
          ("timestamp", JInt (_choose_timestamp clock df));
          ("processing_time_ms", JInt (processing_ms clock));
          ("categories",
           JList [ JDict [ ("category", JStr "dexes");
                           ("score", JFloat z);
                           ("transaction_count", JInt (len df));
                           ("features",
                            JDict [ ("total_deposit_usd", JFloat (feature_or_0 total_deposit_usd lp));
                                    ("total_withdraw_usd", JFloat (feature_or_0 total_withdraw_usd lp));
                                    ("num_deposits", JInt (int_feature_or_0 num_deposits lp));
                                    ("num_withdraws", JInt (int_feature_or_0 num_withdraws lp));
                                    ("total_swap_volume", JFloat (feature_or_0 total_swap_volume sw));
                                    ("num_swaps", JInt (int_feature_or_0 num_swaps sw));
                                    ("unique_pools", JInt (int_feature_or_0 unique_pools lp)) ]) ] ]) ] in
      (success, None)
  | Raise e =>
      let failure :=
        [ ("wallet_address", address);
          ("error", JStr ("Exception during processing: " ++ e));
          ("timestamp", JInt (py_int (time_fallback clock)));
          ("processing_time_ms", JInt (processing_ms clock));
          ("categories",
           JList [ JDict [ ("category", JStr "dexes");
                           ("error", JStr e);
                           ("transaction_count", JInt 0) ] ]) ] in
      ([], Some failure)
  end.

(** ** The shipped sample message *)

Definition sample_token (usd : Q) (sym : string) : field TokenAmount :=
  Val (mkTokenAmount (Val usd) (Val sym)).

Definition sample_pool : field string :=
  Val "0x88e6a0c2ddd26feeb64f039a2c41296fcb3f5640".

Definition SAMPLE_WALLET_MESSAGE : WalletMessage :=
  mkWalletMessage (Val "0x742d35Cc6634C0532925a3b8D4C9db96590e4265")
    [ mkProtocolData (Val "dexes")
        [ mkDexTransaction (Val "507f1f77bcf86cd799439011") (Val "swap") 1703980800
            (Val "uniswap_v3") sample_pool (Val "Uniswap V3 USDC/WETH 0.05%")
            (sample_token 1000 "USDC") (sample_token 1000 "WETH") Absent Absent;
          mkDexTransaction (Val "507f1f77bcf86cd799439012") (Val "deposit") 1703980900
            (Val "uniswap_v3") sample_pool (Val "Uniswap V3 USDC/WETH 0.05%")
            Absent Absent (sample_token 500 "USDC") (sample_token 500 "WETH");
          mkDexTransaction (Val "507f1f77bcf86cd799439013") (Val "withdraw") 1703981800
            (Val "uniswap_v3") sample_pool (Val "Uniswap V3 USDC/WETH 0.05%")
            Absent Absent (sample_token 250 "USDC") (sample_token 250 "WETH") ] ].

Definition sample_clock : Clock := mkClock 1704000000 1704000000 1704000000 1704000000.

(** ** The consume loop of the stream runner

    [KafkaService.consume] and [KafkaService.produce].  The scoring entry
    point the loop calls ([self.model.score_wallet]) and the transport are
    inputs of the model: scoring either returns a score or raises, the
    consumer iterator yields a message or raises, and the [n]-th call of
    [producer.send_and_wait] either returns or raises. *)

Record Stats : Type := mkStats {
  total_consumed : Z;
  total_scored : Z;
  total_failed : Z;
  total_produced : Z
}.

Section Consume.

Variable Message : Type.
Variable Score : Type.
Variable wallet_of : Message -> option string.
Variable score_wallet : Message -> result Score.
Variable send_and_wait : nat -> option string * Score -> result unit.

(** The shared counters together with the calls made on the producer:
    [attempted] lists every message handed to [send_and_wait], oldest
    first, [delivered] those whose send returned. *)
Record Runner : Type := mkRunner {
  stats : Stats;
  attempted : list (option string * Score);
  delivered : list (option string * Score)
}.

Definition incr_consumed (st : Stats) : Stats :=
  mkStats (total_consumed st + 1) (total_scored st) (total_failed st) (total_produced st).

Definition incr_scored (st : Stats) : Stats :=
  mkStats (total_consumed st) (total_scored st + 1) (total_failed st) (total_produced st).

Definition incr_failed (st : Stats) : Stats :=
  mkStats (total_consumed st) (total_scored st) (total_failed st + 1) (total_produced st).

Definition incr_produced (st : Stats) : Stats :=
  mkStats (total_consumed st) (total_scored st) (total_failed st) (total_produced st + 1).

(** [produce]: a failed send is logged and swallowed. *)
Definition produce (r : Runner) (message : option string * Score) : Runner :=
  match send_and_wait (List.length (attempted r)) message with
  | Ok _ =>
      mkRunner (incr_produced (stats r)) (attempted r ++ [message])
               (delivered r ++ [message])
  | Raise _ =>
      mkRunner (stats r) (attempted r ++ [message]) (delivered r)
  end.

(** The body of the [async for] loop for one message. *)
Definition consume_one (r : Runner) (wallet_data : Message) : Runner :=
  let r := mkRunner (incr_consumed (stats r)) (attempted r) (delivered r) in
  match score_wallet wallet_data with
  | Ok score =>
      let output := (wallet_of wallet_data, score) in
      let r := produce r output in
      mkRunner (incr_scored (stats r)) (attempted r) (delivered r)
  | Raise _ =>
      mkRunner (incr_failed (stats r)) (attempted r) (delivered r)
  end.

(** What the consumer iterator does next. *)
Inductive Inbound : Type :=
| Msg (wallet_data : Message)
| ConsumerFault (e : string).

Inductive LoopEnd : Type :=
| Exhausted
| Crashed (e : string).

(** The loop over the events of the inbound stream. *)
Fixpoint consume (r : Runner) (stream : list Inbound) : Runner * LoopEnd :=
  match stream with
  | [] => (r, Exhausted)
  | Msg wallet_data :: rest => consume (consume_one r wallet_data) rest
  | ConsumerFault e :: _ => (r, Crashed e)
  end.

End Consume.

Arguments Msg {Message} wallet_data.
Arguments ConsumerFault {Message} e.
Arguments mkRunner {Score} stats attempted delivered.
Arguments stats {Score} r.
Arguments attempted {Score} r.
Arguments delivered {Score} r.

(** * Properties *)

(** ** Evaluation on the shipped sample *)

Example sample_rows_count :
  List.length (preprocess_dex_transactions SAMPLE_WALLET_MESSAGE) = 3%nat.
Proof. reflexivity. Qed.

Example sample_is_success :
  snd (process_wallet sample_clock SAMPLE_WALLET_MESSAGE) = None
  /\ has_key "zscore" (fst (process_wallet sample_clock SAMPLE_WALLET_MESSAGE)) = true.
Proof. split; vm_compute; reflexivity. Qed.

Example sample_tags :
  match process_wallet_complete 1704000000 SAMPLE_WALLET_MESSAGE with
  | Ok (_, Complete cf, _) =>
      user_tags cf = ["Small LP"; "Short-term Holder"; "Casual Trader"]
  | _ => False
  end.
Proof. vm_compute. reflexivity. Qed.

Example format_18f_sample : format_18f (14303125 # 100000) = "143.031250000000000000".
Proof. vm_compute. reflexivity. Qed.

(** ** Tags *)

Lemma lp_level_tag_cases (td : Q) :
  In (lp_level_tag td) [["Whale LP"]; ["Large LP"]; ["Medium LP"]; ["Small LP"]; []].
Proof.
  unfold lp_level_tag.
  repeat match goal with |- context [if ?b then _ else _] => destruct b end;
    simpl; tauto.
Qed.

Lemma holding_tag_cases (ht : Q) :
  In (holding_tag ht)
     [["Long-term Holder"]; ["Medium-term Holder"]; ["Short-term Holder"]; []].
Proof.
  unfold holding_tag.
  repeat match goal with |- context [if ?b then _ else _] => destruct b end;
    simpl; tauto.
Qed.

Lemma swap_volume_tag_cases (sv : Q) :
  In (swap_volume_tag sv)
     [["Whale Trader"]; ["Large Trader"]; ["Active Trader"]; ["Casual Trader"]; []].
Proof.
  unfold swap_volume_tag.
  repeat match goal with |- context [if ?b then _ else _] => destruct b end;
    simpl; tauto.
Qed.

Lemma frequency_tag_cases (n : Z) :
  In (frequency_tag n) [["High Frequency Trader"]; ["Regular Trader"]; []].
Proof.
  unfold frequency_tag.
  repeat match goal with |- context [if ?b then _ else _] => destruct b end;
    simpl; tauto.
Qed.

Lemma diversity_tag_cases (d p : Z) :
  In (diversity_tag d p) [["Diversified Trader"]; ["Multi-Pool LP"]; []].
Proof.
  unfold diversity_tag.
  repeat match goal with |- context [if ?b then _ else _] => destruct b end;
    simpl; tauto.
Qed.

(** Duplicate-freeness of a list of strings, as a computation. *)
Fixpoint nodupb (l : list string) : bool :=
  match l with
  | [] => true
  | x :: rest => negb (mem_string x rest) && nodupb rest
  end.

Lemma mem_string_In (s : string) (l : list string) :
  mem_string s l = true <-> In s l.
Proof.
  unfold mem_string. rewrite existsb_exists. split.
  - intros [x [Hin Heq]]. apply String.eqb_eq in Heq. now subst.
  - intros Hin. exists s. split; [assumption | apply String.eqb_refl].
Qed.

Lemma nodupb_NoDup (l : list string) : nodupb l = true -> NoDup l.
Proof.
  induction l as [|x rest IH]; simpl; intros H.
  - constructor.
  - apply andb_true_iff in H. destruct H as [Hx Hrest].
    constructor.
    + intros Hin. apply mem_string_In in Hin. rewrite Hin in Hx. discriminate.
    + now apply IH.
Qed.

(** C9: for every pair of LP and swap feature mappings, [generate_user_tags]
    returns at most five tags and no tag twice. *)
Theorem generate_user_tags_at_most_5_distinct
        (lp_features : option LPFeatures) (swap_features : option SwapFeatures) :
  (List.length (generate_user_tags lp_features swap_features) <= 5)%nat
  /\ NoDup (generate_user_tags lp_features swap_features).
Proof.
  unfold generate_user_tags.
  pose proof (lp_level_tag_cases (feature_or_0 total_deposit_usd lp_features)) as H1.
  pose proof (holding_tag_cases (feature_or_0 avg_hold_time_days lp_features)) as H2.
  pose proof (swap_volume_tag_cases (feature_or_0 total_swap_volume swap_features)) as H3.
  pose proof (frequency_tag_cases (int_feature_or_0 num_swaps swap_features)) as H4.
  pose proof (diversity_tag_cases
                (int_feature_or_0 token_diversity_score swap_features)
                (int_feature_or_0 unique_pools lp_features)) as H5.
  set (t1 := lp_level_tag _) in *. set (t2 := holding_tag _) in *.
  set (t3 := swap_volume_tag _) in *. set (t4 := frequency_tag _) in *.
  set (t5 := diversity_tag _ _) in *.
  clearbody t1 t2 t3 t4 t5.
  simpl in H1, H2, H3, H4, H5.
  repeat match goal with
         | H : _ \/ _ |- _ => destruct H as [H | H]
         | H : False |- _ => destruct H
         end; subst;
    (split; [simpl; lia | apply nodupb_NoDup; reflexivity]).
Qed.

(** ** Payloads *)

Definition is_nil {A : Type} (l : list A) : bool :=
  match l with
  | [] => true
  | _ :: _ => false
  end.

(** The message has no DEX transaction: every group is tagged with another
    protocol type or lists no transaction (an empty [data] included). *)
Definition no_dex_transactions (wallet_data : WalletMessage) : bool :=
  forallb (fun c => negb (is_dexes c) || is_nil (transactions c)) (data wallet_data).

Lemma no_dex_transactions_empty_frame (wallet_data : WalletMessage) :
  no_dex_transactions wallet_data = true ->
  preprocess_dex_transactions wallet_data = [].
Proof.
  unfold no_dex_transactions, preprocess_dex_transactions.
  induction (data wallet_data) as [|c rest IH]; simpl; intros H.
  - reflexivity.
  - apply andb_true_iff in H. destruct H as [Hc Hrest].
    rewrite (IH Hrest), app_nil_r.
    destruct (is_dexes c); simpl in Hc; [|reflexivity].
    destruct (transactions c); [reflexivity | discriminate].
Qed.

Definition no_valid_transactions_failure (clock : Clock) (wallet_data : WalletMessage)
  : Payload :=
  [ ("wallet_address", opt_str (get (wallet_address wallet_data)));
    ("error", JStr "No valid transactions found");
    ("timestamp", JInt (py_int (inject_Z (py_int (time_fallback clock)))));
    ("processing_time_ms", JInt (processing_ms clock));
    ("categories",
     JList [ JDict [ ("category", JStr "dexes");
                     ("error", JStr "No valid transactions found");
                     ("transaction_count", JInt 0) ] ]) ].

(** C6: a wallet message whose transaction data is empty or holds only
    non-DEX protocol groups gets the "No valid transactions found" failure
    payload with [transaction_count] 0, and no success payload. *)
Theorem process_wallet_no_valid_transactions
        (clock : Clock) (wallet_data : WalletMessage) :
  no_dex_transactions wallet_data = true ->
  process_wallet clock wallet_data
  = ([], Some (no_valid_transactions_failure clock wallet_data)).
Proof.
  intros H. unfold process_wallet, process_wallet_complete.
  rewrite (no_dex_transactions_empty_frame _ H). reflexivity.
Qed.

Definition non_dex_only_message : WalletMessage :=
  mkWalletMessage (Val "0xabc")
    [ mkProtocolData (Val "lending")
        [ mkDexTransaction (Val "1") (Val "deposit") 1703980900 Absent Absent Absent
                           Absent Absent (sample_token 500 "USDC") Absent ] ].

Lemma process_wallet_no_valid_transactions_witness :
  no_dex_transactions non_dex_only_message = true
  /\ process_wallet sample_clock non_dex_only_message
     = ([], Some (no_valid_transactions_failure sample_clock non_dex_only_message)).
Proof.
  split.
  - reflexivity.
  - apply (process_wallet_no_valid_transactions sample_clock non_dex_only_message).
    reflexivity.
Defined.

(** C7: [process_wallet] populates exactly one of the two payload slots; a
    populated success payload has the key [zscore] and not [error], a
    populated failure payload has [error] and not [zscore]. *)
Theorem process_wallet_exactly_one_payload
        (clock : Clock) (wallet_data : WalletMessage) :
  let success := fst (process_wallet clock wallet_data) in
  let failure := snd (process_wallet clock wallet_data) in
  (populated (Some success) = true /\ populated failure = false
   /\ has_key "zscore" success = true /\ has_key "error" success = false)
  \/
  (populated (Some success) = false /\ populated failure = true
   /\ exists payload,
       failure = Some payload
       /\ has_key "error" payload = true /\ has_key "zscore" payload = false).
Proof.
  unfold process_wallet.
  destruct (process_wallet_complete (datetime_now clock) wallet_data)
    as [[[z [error | features]] df] | e]; cbn [fst snd].
  - right. repeat split. eexists. repeat split.
  - left. repeat split.
  - right. repeat split. eexists. repeat split.
Qed.

(** ** Arithmetic helpers *)

Lemma Qltb_lt (a b : Q) : Qltb a b = true <-> a < b.
Proof.
  unfold Qltb. rewrite negb_true_iff. split.
  - intros H. apply Qnot_le_lt. intros Hle.
    apply Qle_bool_iff in Hle. congruence.
  - intros H. destruct (Qle_bool b a) eqn:E; [|reflexivity].
    apply Qle_bool_iff in E. apply Qle_not_lt in E. contradiction.
Qed.

Lemma Qltb_ge (a b : Q) : Qltb a b = false <-> b <= a.
Proof.
  unfold Qltb. rewrite negb_false_iff. apply Qle_bool_iff.
Qed.

Lemma Qdiv_const (a : Q) (p : positive) : a / inject_Z (Zpos p) == a * (1 # p).
Proof. unfold Qdiv. apply Qmult_comp; reflexivity. Qed.

Lemma Qdiv_nonneg (a b : Q) : 0 <= a -> 0 <= b -> 0 <= a / b.
Proof.
  intros Ha Hb. unfold Qdiv.
  apply Qmult_le_0_compat; [assumption | now apply Qinv_le_0_compat].
Qed.

Lemma Qmin_cap_range (x cap : Q) : 0 <= x -> 0 <= cap -> 0 <= Qmin x cap <= cap.
Proof.
  intros Hx Hc. split.
  - apply Q.min_glb; assumption.
  - apply Q.le_min_r.
Qed.

Lemma Qmax_floor_range (x cap : Q) : x <= cap -> 0 <= cap -> 0 <= Qmax 0 x <= cap.
Proof.
  intros Hx Hc. split.
  - apply Q.le_max_l.
  - apply Q.max_lub; assumption.
Qed.

Lemma inject_Z_nonneg (n : Z) : (0 <= n)%Z -> 0 <= inject_Z n.
Proof. intros H. change 0 with (inject_Z 0). now rewrite <- Zle_Qle. Qed.

Lemma py_div_positive (a b : Q) : 0 < b -> py_div a b = Ok (a / b).
Proof.
  intros Hb. unfold py_div.
  destruct (Qeq_bool b 0) eqn:E; [|reflexivity].
  apply Qeq_bool_eq in E. rewrite E in Hb. now apply Qlt_irrefl in Hb.
Qed.

Lemma Qsum_nonneg (l : list Q) : Forall (fun x => 0 <= x) l -> 0 <= Qsum l.
Proof.
  induction 1 as [|x rest Hx _ IH]; simpl.
  - apply Qle_refl.
  - change 0 with (0 + 0). now apply Qplus_le_compat.
Qed.

Lemma mean_nonneg (l : list Q) : Forall (fun x => 0 <= x) l -> 0 <= mean l.
Proof.
  intros H. unfold mean. apply Qdiv_nonneg.
  - now apply Qsum_nonneg.
  - apply inject_Z_nonneg. lia.
Qed.

(** ** The extractors never raise *)

(** The guarded quotient [a / b if b > 0 else 0.0]. *)
Definition ratio_or_0 (a b : Q) : Q := if Qltb 0 b then a / b else 0.

Lemma guarded_div (a b : Q) :
  (if Qltb 0 b then py_div a b else Ok 0) = Ok (ratio_or_0 a b).
Proof.
  unfold ratio_or_0. destruct (Qltb 0 b) eqn:E; [|reflexivity].
  apply py_div_positive. now apply Qltb_lt.
Qed.

(** The value of [calculate_lp_features] on a frame with a first row. *)
Definition lp_features_of (current_time : Q) (first : Row) (rest : DataFrame)
  : LPFeatures :=
  let df := first :: rest in
  let deposits := with_action "deposit" df in
  let withdraws := with_action "withdraw" df in
  let td := if empty deposits then 0 else sum_amount_usd deposits in
  let tw := if empty withdraws then 0 else sum_amount_usd withdraws in
  mkLPFeatures td tw (len deposits) (len withdraws) (ratio_or_0 tw td)
    (calculate_holding_time current_time deposits withdraws)
    ((inject_Z (timestamp_max first rest) - inject_Z (timestamp_min first rest)) / 86400)
    (nunique_pool_id df).

Lemma calculate_lp_features_cons (current_time : Q) (first : Row) (rest : DataFrame) :
  calculate_lp_features current_time (first :: rest)
  = Ok (Some (lp_features_of current_time first rest)).
Proof.
  unfold calculate_lp_features, lp_features_of.
  cbv zeta. rewrite guarded_div. reflexivity.
Qed.

(** The value of [calculate_swap_features] on a non-empty frame. *)
Definition swap_features_of (df : DataFrame) : SwapFeatures :=
  let swaps := with_action "swap" df in
  if empty swaps then mkSwapFeatures 0 0 0 0 0 0
  else
    mkSwapFeatures (sum_amount_usd swaps) (len swaps) (nunique_pool_id swaps)
      (sum_amount_usd swaps / inject_Z (len swaps))
      (_token_diversity swaps) (_swap_frequency swaps).

Lemma len_positive (df : DataFrame) : empty df = false -> (0 < len df)%Z.
Proof. destruct df; simpl; [discriminate | intros _; unfold len; simpl; lia]. Qed.

Lemma calculate_swap_features_cons (first : Row) (rest : DataFrame) :
  calculate_swap_features (first :: rest)
  = Ok (Some (swap_features_of (first :: rest))).
Proof.
  unfold calculate_swap_features, swap_features_of.
  cbn [empty]. cbv zeta.
  destruct (empty (with_action "swap" (first :: rest))) eqn:E; [reflexivity|].
  pose proof (len_positive _ E) as Hlen.
  assert (Hb : (0 <? len (with_action "swap" (first :: rest)))%Z = true)
    by now apply Z.ltb_lt.
  rewrite Hb. rewrite py_div_positive; [reflexivity|].
  change 0 with (inject_Z 0). now rewrite <- Zlt_Qlt.
Qed.

(** The value of [process_wallet_complete] on a frame with a first row. *)
Definition scored (current_time : Q) (first : Row) (rest : DataFrame)
  : Q * CompleteFeatures :=
  let lp_features := Some (lp_features_of current_time first rest) in
  let swap_features := Some (swap_features_of (first :: rest)) in
  let lp := calculate_lp_score lp_features in
  let sw := calculate_swap_score swap_features in
  let fin := calculate_final_score (fst lp) (fst sw) lp_features swap_features in
  (fst fin, set_score_breakdown (snd fin) (snd lp, snd sw)).

Lemma process_wallet_complete_cons
      (current_time : Q) (wallet_data : WalletMessage) (first : Row) (rest : DataFrame) :
  preprocess_dex_transactions wallet_data = first :: rest ->
  process_wallet_complete current_time wallet_data
  = Ok (fst (scored current_time first rest),
        Complete (snd (scored current_time first rest)),
        first :: rest).
Proof.
  intros Hdf. unfold process_wallet_complete. rewrite Hdf. cbn [empty].
  rewrite calculate_lp_features_cons. cbn [bind].
  rewrite calculate_swap_features_cons. cbn [bind].
  reflexivity.
Qed.

Lemma process_wallet_complete_nil (current_time : Q) (wallet_data : WalletMessage) :
  preprocess_dex_transactions wallet_data = [] ->
  process_wallet_complete current_time wallet_data
  = Ok (0, ErrorFeatures "No valid transactions found", []).
Proof.
  intros Hdf. unfold process_wallet_complete. now rewrite Hdf.
Qed.

(** ** Ranges of the features *)

(** Every [amount_usd] cell of the frame is non-negative. *)
Definition amounts_nonneg (df : DataFrame) : bool :=
  forallb (fun r => match row_amount_usd r with
                    | Some q => Qle_bool 0 q
                    | None => true
                    end) df.

(** No deposit row is timestamped after the clock reading. *)
Definition deposits_not_after (current_time : Q) (df : DataFrame) : bool :=
  forallb (fun r => Qle_bool (inject_Z (row_timestamp r)) current_time)
          (with_action "deposit" df).

Lemma forallb_filter {A : Type} (p q : A -> bool) (l : list A) :
  forallb p l = true -> forallb p (filter q l) = true.
Proof.
  induction l as [|x rest IH]; simpl; intros H; [reflexivity|].
  apply andb_true_iff in H. destruct H as [Hx Hrest].
  destruct (q x); simpl; [rewrite Hx|]; auto.
Qed.

Lemma sum_amount_usd_nonneg (df : DataFrame) :
  amounts_nonneg df = true -> 0 <= sum_amount_usd df.
Proof.
  induction df as [|r rest IH]; simpl; intros H.
  - apply Qle_refl.
  - apply andb_true_iff in H. destruct H as [Hr Hrest].
    destruct (row_amount_usd r) as [q|]; [|auto].
    apply Qle_bool_iff in Hr. specialize (IH Hrest).
    change 0 with (0 + 0). now apply Qplus_le_compat.
Qed.

Lemma total_usd_nonneg (name : string) (df : DataFrame) :
  amounts_nonneg df = true ->
  0 <= (if empty (with_action name df) then 0 else sum_amount_usd (with_action name df)).
Proof.
  intros H. destruct (empty _); [apply Qle_refl|].
  apply sum_amount_usd_nonneg. now apply forallb_filter.
Qed.

Lemma ratio_or_0_nonneg (a b : Q) : 0 <= a -> 0 <= ratio_or_0 a b.
Proof.
  intros Ha. unfold ratio_or_0. destruct (Qltb 0 b) eqn:E; [|apply Qle_refl].
  apply Qltb_lt in E. apply Qdiv_nonneg; [assumption | now apply Qlt_le_weak].
Qed.

Lemma timestamp_min_In (first : Row) (rest : DataFrame) :
  exists r, In r (first :: rest) /\ timestamp_min first rest = row_timestamp r.
Proof.
  unfold timestamp_min. induction rest as [|x rest IH]; simpl.
  - exists first. auto.
  - destruct IH as [r [Hin Heq]]. simpl in Heq.
    destruct (Z.min_spec (row_timestamp x)
                (fold_right (fun r m => Z.min (row_timestamp r) m)
                            (row_timestamp first) rest)) as [[_ E] | [_ E]];
      rewrite E.
    + exists x. auto.
    + exists r. split; [|assumption]. simpl in Hin. destruct Hin; auto.
Qed.

Lemma len_nonneg (df : DataFrame) : (0 <= len df)%Z.
Proof. unfold len. lia. Qed.

Lemma nunique_pool_id_nonneg (df : DataFrame) : (0 <= nunique_pool_id df)%Z.
Proof. unfold nunique_pool_id. lia. Qed.

Lemma holding_time_days_nonneg (current_time : Q) (withdraws : DataFrame) (deposit : Row) :
  inject_Z (row_timestamp deposit) <= current_time ->
  0 <= holding_time_days current_time withdraws deposit.
Proof.
  intros Hnow. unfold holding_time_days. cbv zeta.
  destruct (filter _ withdraws) as [|w ws] eqn:E.
  - apply Qdiv_nonneg; [lra | discriminate].
  - destruct (timestamp_min_In w ws) as [r [Hin Hmin]]. rewrite Hmin.
    rewrite <- E in Hin. apply filter_In in Hin. destruct Hin as [_ Hlt].
    apply Qltb_lt in Hlt.
    apply Qdiv_nonneg; [lra | discriminate].
Qed.

Lemma calculate_holding_time_nonneg (current_time : Q) (deposits withdraws : DataFrame) :
  forallb (fun r => Qle_bool (inject_Z (row_timestamp r)) current_time) deposits = true ->
  0 <= calculate_holding_time current_time deposits withdraws.
Proof.
  intros H. unfold calculate_holding_time.
  destruct (empty deposits); [apply Qle_refl|]. cbv zeta.
  assert (Hall : Forall (fun x => 0 <= x)
                        (map (holding_time_days current_time withdraws) deposits)).
  { apply Forall_forall. intros x Hx. apply in_map_iff in Hx.
    destruct Hx as [d [Hd Hin]]. subst x.
    apply holding_time_days_nonneg.
    rewrite forallb_forall in H. apply Qle_bool_iff. now apply H. }
  destruct (map _ deposits) eqn:E; [apply Qle_refl|].
  now apply mean_nonneg.
Qed.

(** Non-negativity of the LP feature fields that the scorer reads. *)
Definition lp_features_nonneg (f : LPFeatures) : Prop :=
  0 <= total_deposit_usd f
  /\ (0 <= num_deposits f)%Z
  /\ 0 <= withdraw_ratio f
  /\ 0 <= avg_hold_time_days f
  /\ (0 <= unique_pools f)%Z.

Lemma lp_features_of_nonneg (current_time : Q) (first : Row) (rest : DataFrame) :
  amounts_nonneg (first :: rest) = true ->
  deposits_not_after current_time (first :: rest) = true ->
  lp_features_nonneg (lp_features_of current_time first rest).
Proof.
  intros Hamt Hdep. unfold lp_features_nonneg, lp_features_of. cbn -[with_action].
  repeat split.
  - now apply total_usd_nonneg.
  - apply len_nonneg.
  - apply ratio_or_0_nonneg. now apply total_usd_nonneg.
  - now apply calculate_holding_time_nonneg.
  - apply nunique_pool_id_nonneg.
Qed.

(** ** Ranges of the sub-score components *)

Definition lp_breakdown_in_range (b : LPBreakdown) : Prop :=
  (0 <= lp_volume_score b <= 300)
  /\ (0 <= lp_frequency_score b <= 200)
  /\ (0 <= lp_retention_score b <= 250)
  /\ (0 <= lp_holding_score b <= 150)
  /\ (0 <= lp_diversity_score b <= 100).

Definition swap_breakdown_in_range (b : SwapBreakdown) : Prop :=
  (0 <= swap_volume_score b <= 250)
  /\ (0 <= swap_frequency_component b <= 200)
  /\ (0 <= swap_diversity_score b <= 150)
  /\ (0 <= swap_activity_score b <= 100)
  /\ (0 <= swap_pool_diversity_score b <= 100).

(** The breakdown returned for a non-empty feature dictionary. *)
Definition lp_breakdown_of (f : LPFeatures) : LPBreakdown :=
  match snd (calculate_lp_score (Some f)) with
  | Some b => b
  | None => mkLPBreakdown 0 0 0 0 0 0
  end.

Definition swap_breakdown_of (f : SwapFeatures) : SwapBreakdown :=
  match snd (calculate_swap_score (Some f)) with
  | Some b => b
  | None => mkSwapBreakdown 0 0 0 0 0 0
  end.

Lemma scaled_nonneg (x : Q) (p : positive) (k : Q) :
  0 <= x -> 0 <= k -> 0 <= x / inject_Z (Zpos p) * k.
Proof.
  intros Hx Hk. apply Qmult_le_0_compat; [|assumption].
  apply Qdiv_nonneg; [assumption | discriminate].
Qed.

Lemma count_scaled_nonneg (n : Z) (k : Q) :
  (0 <= n)%Z -> 0 <= k -> 0 <= inject_Z n * k.
Proof.
  intros Hn Hk. apply Qmult_le_0_compat; [now apply inject_Z_nonneg | assumption].
Qed.

Lemma lp_breakdown_range (f : LPFeatures) :
  lp_features_nonneg f -> lp_breakdown_in_range (lp_breakdown_of f).
Proof.
  intros (Htd & Hnd & Hwr & Hht & Hup).
  unfold lp_breakdown_in_range, lp_breakdown_of. cbn.
  repeat apply conj.
  - apply Qmin_cap_range; [|discriminate].
    apply (scaled_nonneg _ 10000); [assumption | discriminate].
  - apply Q.le_min_r.
  - apply Qmin_cap_range; [|discriminate].
    apply count_scaled_nonneg; [assumption | discriminate].
  - apply Q.le_min_r.
  - apply Q.le_max_l.
  - apply Q.max_lub; [discriminate | lra].
  - apply Qmin_cap_range; [|discriminate].
    apply (scaled_nonneg _ 30); [assumption | discriminate].
  - apply Q.le_min_r.
  - apply Qmin_cap_range; [|discriminate].
    apply count_scaled_nonneg; [assumption | discriminate].
  - apply Q.le_min_r.
Qed.

Lemma lp_breakdown_total (f : LPFeatures) :
  fst (calculate_lp_score (Some f)) = total_lp_score (lp_breakdown_of f)
  /\ total_lp_score (lp_breakdown_of f)
     = lp_volume_score (lp_breakdown_of f) + lp_frequency_score (lp_breakdown_of f)
       + lp_retention_score (lp_breakdown_of f) + lp_holding_score (lp_breakdown_of f)
       + lp_diversity_score (lp_breakdown_of f).
Proof. split; reflexivity. Qed.

Lemma swap_breakdown_total (f : SwapFeatures) :
  fst (calculate_swap_score (Some f)) = total_swap_score (swap_breakdown_of f)
  /\ total_swap_score (swap_breakdown_of f)
     = swap_volume_score (swap_breakdown_of f)
       + swap_frequency_component (swap_breakdown_of f)
       + swap_diversity_score (swap_breakdown_of f)
       + swap_activity_score (swap_breakdown_of f)
       + swap_pool_diversity_score (swap_breakdown_of f).
Proof. split; reflexivity. Qed.

Lemma _token_diversity_range (swaps : DataFrame) :
  (0 <= _token_diversity swaps <= 150)%Z.
Proof.
  unfold _token_diversity. destruct (empty swaps); [lia|]. cbv zeta.
  set (all_tokens := nodup string_dec _).
  pose proof (filter_length_le (fun t => mem_string t stable_tokens) all_tokens) as Hle.
  lia.
Qed.

Lemma _swap_frequency_range (swaps : DataFrame) :
  0 <= _swap_frequency swaps <= 100.
Proof.
  unfold _swap_frequency.
  repeat match goal with |- context [if ?b then _ else _] => destruct b end;
    split; discriminate.
Qed.

Definition swap_features_in_range (f : SwapFeatures) : Prop :=
  0 <= total_swap_volume f
  /\ (0 <= num_swaps f)%Z
  /\ (0 <= unique_pools_swapped f)%Z
  /\ (0 <= token_diversity_score f <= 150)%Z
  /\ (0 <= swap_frequency_score f <= 100).

Lemma swap_features_of_range (df : DataFrame) :
  amounts_nonneg df = true -> swap_features_in_range (swap_features_of df).
Proof.
  intros Hamt. unfold swap_features_in_range, swap_features_of.
  destruct (empty (with_action "swap" df)).
  - cbn. repeat split; try lia; discriminate.
  - cbn -[with_action]. repeat apply conj.
    + apply sum_amount_usd_nonneg. now apply forallb_filter.
    + apply len_nonneg.
    + apply nunique_pool_id_nonneg.
    + apply _token_diversity_range.
    + apply _token_diversity_range.
    + apply _swap_frequency_range.
    + apply _swap_frequency_range.
Qed.

Lemma swap_breakdown_range (f : SwapFeatures) :
  swap_features_in_range f -> swap_breakdown_in_range (swap_breakdown_of f).
Proof.
  intros (Hv & Hn & Hp & [Hd0 Hd1] & [Ha0 Ha1]).
  unfold swap_breakdown_in_range, swap_breakdown_of. cbn.
  repeat apply conj.
  - apply Qmin_cap_range; [|discriminate].
    apply (scaled_nonneg _ 50000); [assumption | discriminate].
  - apply Q.le_min_r.
  - apply Qmin_cap_range; [|discriminate].
    apply count_scaled_nonneg; [assumption | discriminate].
  - apply Q.le_min_r.
  - now apply inject_Z_nonneg.
  - change 150 with (inject_Z 150). now rewrite <- Zle_Qle.
  - assumption.
  - assumption.
  - apply Qmin_cap_range; [|discriminate].
    apply count_scaled_nonneg; [assumption | discriminate].
  - apply Q.le_min_r.
Qed.

(** ** Range of the final score *)

Lemma lp_total_range (f : LPFeatures) :
  lp_features_nonneg f -> 0 <= fst (calculate_lp_score (Some f)) <= 1000.
Proof.
  intros H. apply lp_breakdown_range in H.
  destruct (lp_breakdown_total f) as [-> ->].
  destruct H as ([? ?] & [? ?] & [? ?] & [? ?] & [? ?]).
  split; lra.
Qed.

Lemma swap_total_range (f : SwapFeatures) :
  swap_features_in_range f -> 0 <= fst (calculate_swap_score (Some f)) <= 800.
Proof.
  intros H. apply swap_breakdown_range in H.
  destruct (swap_breakdown_total f) as [-> ->].
  destruct H as ([? ?] & [? ?] & [? ?] & [? ?] & [? ?]).
  split; lra.
Qed.

Lemma scored_final_score (current_time : Q) (first : Row) (rest : DataFrame) :
  fst (scored current_time first rest)
  = fst (calculate_lp_score (Some (lp_features_of current_time first rest))) * lp_weight
    + fst (calculate_swap_score (Some (swap_features_of (first :: rest)))) * swap_weight.
Proof. reflexivity. Qed.

Lemma scored_in_range (current_time : Q) (first : Row) (rest : DataFrame) :
  amounts_nonneg (first :: rest) = true ->
  deposits_not_after current_time (first :: rest) = true ->
  0 <= fst (scored current_time first rest) <= 920.
Proof.
  intros Hamt Hdep. rewrite scored_final_score.
  pose proof (lp_total_range _ (lp_features_of_nonneg _ _ _ Hamt Hdep)) as [Hl0 Hl1].
  pose proof (swap_total_range _ (swap_features_of_range _ Hamt)) as [Hs0 Hs1].
  unfold lp_weight, swap_weight. split; lra.
Qed.

(** *** Inputs on which a component leaves its range *)

Definition deposit_of (usd : Q) (ts : Z) : DexTransaction :=
  mkDexTransaction (Val "d1") (Val "deposit") ts (Val "uniswap_v3") (Val "pool-1")
                   (Val "USDC/WETH") Absent Absent
                   (sample_token usd "USDC") (sample_token 0 "WETH").

(** One deposit whose USD amount is negative, scored at the deposit time. *)
Definition negative_deposit_message : WalletMessage :=
  mkWalletMessage (Val "0xabc")
    [ mkProtocolData (Val "dexes") [ deposit_of (-100000) 1703980900 ] ].

(** One deposit of 500 USD stamped in milliseconds, scored at a clock
    reading in seconds. *)
Definition future_deposit_message : WalletMessage :=
  mkWalletMessage (Val "0xabc")
    [ mkProtocolData (Val "dexes") [ deposit_of 500 1703980900000 ] ].

(** C2, as stated, fails: a negative deposit amount, or a deposit stamped
    after the clock reading, gives a final score below 0. *)
Lemma final_score_below_zero :
  (exists z features df,
      process_wallet_complete 1703980900 negative_deposit_message
      = Ok (z, features, df)
      /\ z == -1626)
  /\ (exists z features df,
         process_wallet_complete 1704000000 future_deposit_message
         = Ok (z, features, df)
         /\ z < -1000000).
Proof.
  split; eexists; eexists; eexists; (split; [vm_compute; reflexivity|]);
    vm_compute; reflexivity.
Qed.

(** C2 (amended): when no [amount_usd] is negative and no deposit is stamped
    after the clock reading, [process_wallet_complete] returns and its final
    score lies in [0, 1000]. *)
Theorem final_score_in_range (current_time : Q) (wallet_data : WalletMessage) :
  amounts_nonneg (preprocess_dex_transactions wallet_data) = true ->
  deposits_not_after current_time (preprocess_dex_transactions wallet_data) = true ->
  match process_wallet_complete current_time wallet_data with
  | Ok (z, _, _) => 0 <= z <= 1000
  | Raise _ => False
  end.
Proof.
  intros Hamt Hdep.
  destruct (preprocess_dex_transactions wallet_data) as [|first rest] eqn:Hdf.
  - rewrite (process_wallet_complete_nil _ _ Hdf). split; discriminate.
  - rewrite (process_wallet_complete_cons _ _ _ _ Hdf).
    destruct (scored_in_range _ _ _ Hamt Hdep) as [H0 H1]. split; lra.
Qed.

Lemma final_score_in_range_witness :
  amounts_nonneg (preprocess_dex_transactions SAMPLE_WALLET_MESSAGE) = true
  /\ deposits_not_after 1704000000 (preprocess_dex_transactions SAMPLE_WALLET_MESSAGE) = true
  /\ match process_wallet_complete 1704000000 SAMPLE_WALLET_MESSAGE with
     | Ok (z, _, _) => 0 <= z <= 1000
     | Raise _ => False
     end.
Proof.
  split; [reflexivity|]. split; [reflexivity|].
  apply (final_score_in_range 1704000000 SAMPLE_WALLET_MESSAGE); reflexivity.
Defined.

(** C4, as stated, fails: the LP volume component is negative on a feature
    set with a negative deposit total, and the LP holding component is
    negative when the deposit is stamped after the clock reading. *)
Lemma lp_component_below_zero :
  (exists f b,
      calculate_lp_features 1703980900
        (preprocess_dex_transactions negative_deposit_message) = Ok (Some f)
      /\ snd (calculate_lp_score (Some f)) = Some b
      /\ lp_volume_score b == -3000)
  /\ (exists f b,
         calculate_lp_features 1704000000
           (preprocess_dex_transactions future_deposit_message) = Ok (Some f)
         /\ snd (calculate_lp_score (Some f)) = Some b
         /\ lp_holding_score b < -1000000).
Proof.
  split; eexists; eexists; (split; [vm_compute; reflexivity|]);
    (split; [vm_compute; reflexivity|]); vm_compute; reflexivity.
Qed.

(** C4 (amended): for the feature sets extracted from a frame in which no
    [amount_usd] is negative and no deposit is stamped after the clock
    reading, every component returned by [calculate_lp_score] and
    [calculate_swap_score] is non-negative and at most its cap (LP: 300,
    200, 250, 150, 100; swap: 250, 200, 150, 100, 100); the breakdowns are
    empty only for the empty frame. *)
Theorem sub_score_components_in_range (current_time : Q) (df : DataFrame) :
  amounts_nonneg df = true ->
  deposits_not_after current_time df = true ->
  match calculate_lp_features current_time df, calculate_swap_features df with
  | Ok lp_features, Ok swap_features =>
      match snd (calculate_lp_score lp_features) with
      | Some b => lp_breakdown_in_range b
      | None => df = []
      end
      /\ match snd (calculate_swap_score swap_features) with
         | Some b => swap_breakdown_in_range b
         | None => df = []
         end
  | _, _ => False
  end.
Proof.
  intros Hamt Hdep. destruct df as [|first rest].
  - cbn. split; reflexivity.
  - rewrite calculate_lp_features_cons, calculate_swap_features_cons. split.
    + apply (lp_breakdown_range (lp_features_of current_time first rest)).
      now apply lp_features_of_nonneg.
    + apply (swap_breakdown_range (swap_features_of (first :: rest))).
      now apply swap_features_of_range.
Qed.

Lemma sub_score_components_in_range_witness :
  let df := preprocess_dex_transactions SAMPLE_WALLET_MESSAGE in
  amounts_nonneg df = true
  /\ deposits_not_after 1704000000 df = true
  /\ match calculate_lp_features 1704000000 df, calculate_swap_features df with
     | Ok lp_features, Ok swap_features =>
         match snd (calculate_lp_score lp_features) with
         | Some b => lp_breakdown_in_range b
         | None => df = []
         end
         /\ match snd (calculate_swap_score swap_features) with
            | Some b => swap_breakdown_in_range b
            | None => df = []
            end
     | _, _ => False
     end.
Proof.
  cbv zeta. split; [reflexivity|]. split; [reflexivity|].
  apply (sub_score_components_in_range 1704000000
           (preprocess_dex_transactions SAMPLE_WALLET_MESSAGE)); reflexivity.
Defined.

Example volume_component_clamped :
  lp_volume_score
    (lp_breakdown_of (mkLPFeatures 10000000 0 1 0 0 0 0 1)) == 300.
Proof. vm_compute. reflexivity. Qed.

(** ** Composition of the final score *)

Lemma scored_from_frame (current_time : Q) (first : Row) (rest : DataFrame) :
  fst (scored current_time first rest)
  == (6 # 10) * fst (calculate_lp_score (Some (lp_features_of current_time first rest)))
     + (4 # 10) * fst (calculate_swap_score (Some (swap_features_of (first :: rest)))).
Proof.
  rewrite scored_final_score. unfold lp_weight, swap_weight. ring.
Qed.

Lemma calculate_final_score_value
      (lp sw : Q) (lp_features : option LPFeatures) (swap_features : option SwapFeatures) :
  fst (calculate_final_score lp sw lp_features swap_features)
  == (6 # 10) * lp + (4 # 10) * sw.
Proof.
  unfold calculate_final_score. cbn [fst]. unfold lp_weight, swap_weight. ring.
Qed.

(** C5: the composer returns 0.6 times the LP score plus 0.4 times the swap
    score it is handed, and the final score of the pipeline is that sum for
    the two sub-scores of the wallet: the score [calculate_lp_score] gives
    to the LP features extracted from the frame and the score
    [calculate_swap_score] gives to its swap features.  The complete
    features carry the same two sub-scores and the same final score. *)
Theorem final_score_is_weighted_sum
        (current_time : Q) (wallet_data : WalletMessage)
        (z : Q) (features : CompleteFeatures) (df : DataFrame) :
  process_wallet_complete current_time wallet_data = Ok (z, Complete features, df) ->
  (forall (lp sw : Q) (lf : option LPFeatures) (sf : option SwapFeatures),
      fst (calculate_final_score lp sw lf sf) == (6 # 10) * lp + (4 # 10) * sw)
  /\ exists lp_features swap_features,
      df = preprocess_dex_transactions wallet_data
      /\ calculate_lp_features current_time df = Ok lp_features
      /\ calculate_swap_features df = Ok swap_features
      /\ z == (6 # 10) * fst (calculate_lp_score lp_features)
              + (4 # 10) * fst (calculate_swap_score swap_features)
      /\ lp_score features = fst (calculate_lp_score lp_features)
      /\ swap_score features = fst (calculate_swap_score swap_features)
      /\ final_score features = z.
Proof.
  intros H. split; [apply calculate_final_score_value|].
  destruct (preprocess_dex_transactions wallet_data) as [|first rest] eqn:Hdf.
  - rewrite (process_wallet_complete_nil _ _ Hdf) in H. discriminate.
  - rewrite (process_wallet_complete_cons _ _ _ _ Hdf) in H.
    assert (Hz : z = fst (scored current_time first rest)) by congruence.
    assert (Hf : features = snd (scored current_time first rest)) by congruence.
    assert (Hd : df = first :: rest) by congruence.
    subst z features df.
    exists (Some (lp_features_of current_time first rest)),
           (Some (swap_features_of (first :: rest))).
    split; [reflexivity|].
    split; [apply calculate_lp_features_cons|].
    split; [apply calculate_swap_features_cons|].
    split; [apply scored_from_frame|].
    repeat split.
Qed.

Lemma final_score_is_weighted_sum_witness :
  exists z features df,
    process_wallet_complete 1704000000 SAMPLE_WALLET_MESSAGE
    = Ok (z, Complete features, df)
    /\ exists lp_features swap_features,
        calculate_lp_features 1704000000 df = Ok lp_features
        /\ calculate_swap_features df = Ok swap_features
        /\ z == (6 # 10) * fst (calculate_lp_score lp_features)
                + (4 # 10) * fst (calculate_swap_score swap_features).
Proof.
  eexists. eexists. eexists.
  assert (H : process_wallet_complete 1704000000 SAMPLE_WALLET_MESSAGE
              = Ok (_, Complete _, _)) by (vm_compute; reflexivity).
  split; [exact H|].
  destruct (proj2 (final_score_is_weighted_sum _ _ _ _ _ H))
    as (lpf & swf & _ & Hlp & Hsw & Hz & _).
  exists lpf, swf. repeat split; assumption.
Defined.

(** ** Withdraw ratio *)

Definition withdraw_of (usd : Q) (ts : Z) : DexTransaction :=
  mkDexTransaction (Val "w1") (Val "withdraw") ts (Val "uniswap_v3") (Val "pool-1")
                   (Val "USDC/WETH") Absent Absent
                   (sample_token usd "USDC") (sample_token 0 "WETH").

(** A deposit of -100 USD followed by a withdraw of 50 USD. *)
Definition negative_deposit_then_withdraw : WalletMessage :=
  mkWalletMessage (Val "0xabc")
    [ mkProtocolData (Val "dexes")
        [ deposit_of (-100) 1703980900; withdraw_of 50 1703981800 ] ].

(** C8, as stated, fails: a deposit row exists, yet the ratio is 0 and not
    the quotient of the two totals, because the deposited total is not
    positive. *)
Lemma withdraw_ratio_zero_despite_deposit :
  exists f,
    calculate_lp_features 1704000000
      (preprocess_dex_transactions negative_deposit_then_withdraw) = Ok (Some f)
    /\ num_deposits f = 1%Z
    /\ total_deposit_usd f == -100
    /\ total_withdraw_usd f == 50
    /\ withdraw_ratio f == 0
    /\ ~ withdraw_ratio f == total_withdraw_usd f / total_deposit_usd f.
Proof.
  eexists. split; [vm_compute; reflexivity|].
  repeat split; try (vm_compute; reflexivity).
  vm_compute. discriminate.
Qed.

Lemma total_as_sum (rows : DataFrame) :
  (if empty rows then 0 else sum_amount_usd rows) = sum_amount_usd rows.
Proof. now destruct rows. Qed.

Lemma sum_amount_usd_positive (rows : DataFrame) (d : Row) (q : Q) :
  amounts_nonneg rows = true ->
  In d rows -> row_amount_usd d = Some q -> 0 < q ->
  0 < sum_amount_usd rows.
Proof.
  induction rows as [|r rest IH]; simpl; intros Hall Hin Hq Hpos; [contradiction|].
  apply andb_true_iff in Hall. destruct Hall as [Hr Hrest].
  pose proof (sum_amount_usd_nonneg rest Hrest) as Hsum.
  destruct Hin as [-> | Hin].
  - rewrite Hq. lra.
  - specialize (IH Hrest Hin Hq Hpos).
    destruct (row_amount_usd r) as [x|]; [|assumption].
    apply Qle_bool_iff in Hr. lra.
Qed.

(** C8 (amended): [calculate_lp_features] never raises, so no division by
    zero takes place; [total_deposit_usd] and [total_withdraw_usd] are the
    sums of [amount_usd] over the deposit rows and over the withdraw rows;
    [withdraw_ratio] is [total_withdraw_usd / total_deposit_usd] when
    [total_deposit_usd] is positive and 0 otherwise, in particular 0 when
    [total_deposit_usd] is 0 and when there is no deposit row.  When no
    [amount_usd] is negative, a deposit row with a positive amount makes the
    ratio the quotient. *)
Theorem withdraw_ratio_guarded (current_time : Q) (df : DataFrame) :
  match calculate_lp_features current_time df with
  | Ok (Some f) =>
      total_deposit_usd f = sum_amount_usd (with_action "deposit" df)
      /\ total_withdraw_usd f = sum_amount_usd (with_action "withdraw" df)
      /\ num_deposits f = len (with_action "deposit" df)
      /\ (0 < total_deposit_usd f ->
          withdraw_ratio f = total_withdraw_usd f / total_deposit_usd f)
      /\ (~ 0 < total_deposit_usd f -> withdraw_ratio f = 0)
      /\ (total_deposit_usd f == 0 -> withdraw_ratio f = 0)
      /\ (with_action "deposit" df = [] -> withdraw_ratio f = 0)
      /\ (amounts_nonneg df = true ->
          (exists d q, In d (with_action "deposit" df)
                       /\ row_amount_usd d = Some q /\ 0 < q) ->
          withdraw_ratio f = total_withdraw_usd f / total_deposit_usd f)
  | Ok None => df = []
  | Raise _ => False
  end.
Proof.
  destruct df as [|first rest]; [reflexivity|].
  rewrite calculate_lp_features_cons.
  unfold lp_features_of. cbv zeta. cbn -[with_action len].
  rewrite !total_as_sum.
  set (deposits := with_action "deposit" (first :: rest)).
  set (td := sum_amount_usd deposits).
  set (tw := sum_amount_usd (with_action "withdraw" (first :: rest))).
  assert (Hquot : 0 < td -> ratio_or_0 tw td = tw / td).
  { intros Hpos. unfold ratio_or_0. apply Qltb_lt in Hpos. now rewrite Hpos. }
  assert (Hzero : ~ 0 < td -> ratio_or_0 tw td = 0).
  { intros Hneg. unfold ratio_or_0. destruct (Qltb 0 td) eqn:E; [|reflexivity].
    apply Qltb_lt in E. contradiction. }
  split; [reflexivity|]. split; [reflexivity|]. split; [reflexivity|].
  split; [exact Hquot|]. split; [exact Hzero|].
  split; [|split].
  - intros Hz. apply Hzero. rewrite Hz. apply Qlt_irrefl.
  - intros Hnone. apply Hzero. subst td. rewrite Hnone. apply Qlt_irrefl.
  - intros Hamt (d & q & Hin & Hq & Hpos). apply Hquot.
    apply (sum_amount_usd_positive deposits d q); try assumption.
    unfold deposits, with_action. now apply forallb_filter.
Qed.

Lemma withdraw_ratio_guarded_witness :
  exists f,
    calculate_lp_features 1704000000 (preprocess_dex_transactions SAMPLE_WALLET_MESSAGE)
    = Ok (Some f)
    /\ 0 < total_deposit_usd f
    /\ withdraw_ratio f = total_withdraw_usd f / total_deposit_usd f.
Proof.
  pose proof (withdraw_ratio_guarded
                1704000000 (preprocess_dex_transactions SAMPLE_WALLET_MESSAGE)) as H.
  destruct (calculate_lp_features 1704000000
              (preprocess_dex_transactions SAMPLE_WALLET_MESSAGE)) as [[f|]|] eqn:E;
    [|discriminate E|discriminate E].
  exists f. split; [reflexivity|].
  destruct H as (Htd & _ & _ & Hquot & _).
  assert (Hpos : 0 < total_deposit_usd f) by (rewrite Htd; reflexivity).
  split; [exact Hpos | exact (Hquot Hpos)].
Defined.

(** ** Dependence on the clock *)

(** One open deposit, scored one day and two days after it was made. *)
Definition open_deposit_message : WalletMessage :=
  mkWalletMessage (Val "0xabc")
    [ mkProtocolData (Val "dexes") [ deposit_of 500 1703980900 ] ].

(** C3, as stated, fails: two runs on the same message at different times
    return different final scores. *)
Lemma final_score_depends_on_clock :
  exists z1 z2 f1 f2 df,
    process_wallet_complete (1703980900 + 86400) open_deposit_message = Ok (z1, f1, df)
    /\ process_wallet_complete (1703980900 + 2 * 86400) open_deposit_message
       = Ok (z2, f2, df)
    /\ ~ z1 == z2.
Proof.
  do 5 eexists. split; [vm_compute; reflexivity|].
  split; [vm_compute; reflexivity|].
  vm_compute. discriminate.
Qed.

(** Every deposit row has a withdraw row with a strictly later timestamp. *)
Definition deposits_all_withdrawn (df : DataFrame) : bool :=
  forallb
    (fun d =>
       existsb (fun w => Qltb (inject_Z (row_timestamp d)) (inject_Z (row_timestamp w)))
               (with_action "withdraw" df))
    (with_action "deposit" df).

Lemma existsb_filter_cons {A : Type} (p : A -> bool) (l : list A) :
  existsb p l = true -> exists x xs, filter p l = x :: xs.
Proof.
  induction l as [|a rest IH]; simpl; intros H; [discriminate|].
  destruct (p a); [eauto|]. now apply IH.
Qed.

Lemma holding_time_days_closed (t1 t2 : Q) (withdraws : DataFrame) (deposit : Row) :
  existsb (fun w => Qltb (inject_Z (row_timestamp deposit)) (inject_Z (row_timestamp w)))
          withdraws = true ->
  holding_time_days t1 withdraws deposit = holding_time_days t2 withdraws deposit.
Proof.
  intros H. unfold holding_time_days. cbv zeta.
  destruct (existsb_filter_cons _ _ H) as [w [ws ->]]. reflexivity.
Qed.

Lemma calculate_holding_time_closed (t1 t2 : Q) (deposits withdraws : DataFrame) :
  forallb
    (fun d =>
       existsb (fun w => Qltb (inject_Z (row_timestamp d)) (inject_Z (row_timestamp w)))
               withdraws) deposits = true ->
  calculate_holding_time t1 deposits withdraws
  = calculate_holding_time t2 deposits withdraws.
Proof.
  intros H. unfold calculate_holding_time. cbv zeta.
  assert (E : map (holding_time_days t1 withdraws) deposits
              = map (holding_time_days t2 withdraws) deposits).
  { apply map_ext_in. intros d Hd. apply holding_time_days_closed.
    rewrite forallb_forall in H. now apply H. }
  now rewrite E.
Qed.

(** C3 (amended): when every deposit row has a withdraw row with a strictly
    later timestamp (in particular when there is no deposit), two runs of
    [process_wallet_complete] on the same message return the same outcome
    whatever the clock reads. *)
Theorem final_score_clock_independent
        (t1 t2 : Q) (wallet_data : WalletMessage) :
  deposits_all_withdrawn (preprocess_dex_transactions wallet_data) = true ->
  process_wallet_complete t1 wallet_data = process_wallet_complete t2 wallet_data.
Proof.
  intros H.
  destruct (preprocess_dex_transactions wallet_data) as [|first rest] eqn:Hdf.
  - now rewrite !(process_wallet_complete_nil _ _ Hdf).
  - rewrite !(process_wallet_complete_cons _ _ _ _ Hdf).
    unfold scored, lp_features_of. cbv zeta.
    now rewrite (calculate_holding_time_closed t1 t2 _ _ H).
Qed.

Lemma final_score_clock_independent_witness :
  deposits_all_withdrawn (preprocess_dex_transactions SAMPLE_WALLET_MESSAGE) = true
  /\ process_wallet_complete 1704000000 SAMPLE_WALLET_MESSAGE
     = process_wallet_complete 1800000000 SAMPLE_WALLET_MESSAGE.
Proof.
  split; [reflexivity|].
  apply (final_score_clock_independent 1704000000 1800000000 SAMPLE_WALLET_MESSAGE).
  reflexivity.
Defined.

(** ** Wallets with unrecognized actions only *)

(** The transactions of the DEX-tagged groups, in input order. *)
Definition dex_transactions (wallet_data : WalletMessage) : list DexTransaction :=
  flat_map (fun c => if is_dexes c then transactions c else []) (data wallet_data).

Definition unrecognized (tx : DexTransaction) : bool :=
  let a := get (action tx) in
  negb (action_is "swap" a) && negb (action_is "deposit" a)
  && negb (action_is "withdraw" a).

(** The DEX-tagged groups hold at least one transaction and none of them is a
    swap, a deposit or a withdraw. *)
Definition only_unrecognized_actions (wallet_data : WalletMessage) : bool :=
  negb (is_nil (dex_transactions wallet_data))
  && forallb unrecognized (dex_transactions wallet_data).

(** Some DEX transaction has a [poolId] other than [null]. *)
Definition some_pool_not_null (wallet_data : WalletMessage) : bool :=
  existsb (fun tx => match poolId tx with
                     | Null => false
                     | _ => true
                     end) (dex_transactions wallet_data).

Lemma preprocess_as_map (wallet_data : WalletMessage) :
  preprocess_dex_transactions wallet_data
  = map (preprocess_row (get (wallet_address wallet_data)))
        (dex_transactions wallet_data).
Proof.
  unfold preprocess_dex_transactions, dex_transactions.
  induction (data wallet_data) as [|c rest IH]; simpl; [reflexivity|].
  rewrite map_app, IH. now destruct (is_dexes c).
Qed.

Lemma preprocess_row_action (wallet : option string) (tx : DexTransaction) :
  row_action (preprocess_row wallet tx) = get (action tx).
Proof.
  unfold preprocess_row. cbv zeta.
  repeat match goal with |- context [if ?b then _ else _] => destruct b end;
    reflexivity.
Qed.

Lemma preprocess_row_pool_id (wallet : option string) (tx : DexTransaction) :
  row_pool_id (preprocess_row wallet tx) = get_default (poolId tx) "".
Proof.
  unfold preprocess_row. cbv zeta.
  repeat match goal with |- context [if ?b then _ else _] => destruct b end;
    reflexivity.
Qed.

Lemma with_action_unrecognized (name : string) (wallet : option string)
      (txs : list DexTransaction) :
  name = "swap" \/ name = "deposit" \/ name = "withdraw" ->
  forallb unrecognized txs = true ->
  with_action name (map (preprocess_row wallet) txs) = [].
Proof.
  intros Hname. unfold with_action.
  induction txs as [|tx rest IH]; simpl; intros H; [reflexivity|].
  apply andb_true_iff in H. destruct H as [Htx Hrest].
  rewrite preprocess_row_action, (IH Hrest).
  unfold unrecognized in Htx. cbv zeta in Htx.
  apply andb_true_iff in Htx. destruct Htx as [Htx Hw].
  apply andb_true_iff in Htx. destruct Htx as [Hs Hd].
  apply negb_true_iff in Hs, Hd, Hw.
  destruct Hname as [-> | [-> | ->]]; [rewrite Hs | rewrite Hd | rewrite Hw];
    reflexivity.
Qed.

Lemma nunique_pool_id_positive (df : DataFrame) :
  existsb (fun r => match row_pool_id r with
                    | Some _ => true
                    | None => false
                    end) df = true ->
  (1 <= nunique_pool_id df)%Z.
Proof.
  intros H. apply existsb_exists in H. destruct H as [r [Hin Hsome]].
  destruct (row_pool_id r) as [p|] eqn:Hp; [|discriminate].
  assert (Hd : In p (dropna (map row_pool_id df))).
  { clear Hsome. induction df as [|x rest IH]; simpl in *; [contradiction|].
    destruct Hin as [-> | Hin].
    - rewrite Hp. now left.
    - destruct (row_pool_id x); [right|]; auto. }
  unfold nunique_pool_id, distinct.
  apply (nodup_In string_dec) in Hd.
  destruct (nodup string_dec (dropna (map row_pool_id df))); [contradiction|].
  simpl. lia.
Qed.

Lemma scored_without_actions (current_time : Q) (first : Row) (rest : DataFrame) :
  with_action "swap" (first :: rest) = [] ->
  with_action "deposit" (first :: rest) = [] ->
  with_action "withdraw" (first :: rest) = [] ->
  fst (scored current_time first rest)
  == (6 # 10) * (250 + Qmin (inject_Z (nunique_pool_id (first :: rest)) * 20) 100).
Proof.
  intros Hs Hd Hw. rewrite scored_final_score.
  unfold lp_features_of, swap_features_of. cbv zeta.
  rewrite Hs, Hd, Hw.
  unfold calculate_lp_score, calculate_swap_score, calculate_holding_time.
  cbn [empty fst snd total_deposit_usd num_deposits withdraw_ratio
       avg_hold_time_days unique_pools total_swap_volume num_swaps
       token_diversity_score swap_frequency_score unique_pools_swapped len
       List.length].
  set (m := Qmin (inject_Z (nunique_pool_id (first :: rest)) * 20) 100).
  assert (E1 : Qmin (0 / 10000 * 300) 300 == 0) by reflexivity.
  assert (E2 : Qmin (inject_Z (Z.of_nat 0) * 20) 200 == 0) by reflexivity.
  assert (E3 : Qmax 0 ((1 - ratio_or_0 0 0) * 250) == 250) by reflexivity.
  assert (E4 : Qmin (0 / 30 * 150) 150 == 0) by reflexivity.
  assert (E5 : Qmin (0 / 50000 * 250) 250 == 0) by reflexivity.
  assert (E6 : Qmin (inject_Z 0 * 10) 200 == 0) by reflexivity.
  assert (E7 : Qmin (inject_Z 0 * 25) 100 == 0) by reflexivity.
  unfold lp_weight, swap_weight.
  rewrite E1, E2, E3, E4, E5, E6, E7. change (inject_Z 0) with 0. ring.
Qed.

Lemma process_wallet_success
      (clock : Clock) (wallet_data : WalletMessage) (first : Row) (rest : DataFrame) :
  preprocess_dex_transactions wallet_data = first :: rest ->
  snd (process_wallet clock wallet_data) = None
  /\ has_key "zscore" (fst (process_wallet clock wallet_data)) = true
  /\ has_key "error" (fst (process_wallet clock wallet_data)) = false.
Proof.
  intros Hdf. unfold process_wallet.
  rewrite (process_wallet_complete_cons _ _ _ _ Hdf). repeat split.
Qed.

(** One DEX transaction with an action the model does not know and a
    [null] pool identifier. *)
Definition transfer_null_pool_message : WalletMessage :=
  mkWalletMessage (Val "0xabc")
    [ mkProtocolData (Val "dexes")
        [ mkDexTransaction (Val "t1") (Val "transfer") 1703980900 (Val "uniswap_v3")
                           Null (Val "USDC/WETH") Absent Absent Absent Absent ] ].

(** C10, as stated, fails: with a [null] pool identifier the wallet is
    scored 150, below the claimed 162. *)
Lemma unrecognized_only_score_below_162 :
  only_unrecognized_actions transfer_null_pool_message = true
  /\ exists z features df,
      process_wallet_complete 1704000000 transfer_null_pool_message
      = Ok (z, Complete features, df)
      /\ z == 150 /\ z < 162.
Proof.
  split; [reflexivity|].
  do 3 eexists. split; [vm_compute; reflexivity|].
  split; vm_compute; reflexivity.
Qed.

(** C10 (amended): a wallet whose DEX-tagged groups hold at least one
    transaction and only unrecognized actions gets a success payload, not a
    failure; its final score is 0.6 times (250 plus the LP diversity
    component), hence at least 150, and at least 162 when some transaction
    has a pool identifier other than [null]. *)
Theorem unrecognized_only_is_scored (clock : Clock) (wallet_data : WalletMessage) :
  only_unrecognized_actions wallet_data = true ->
  snd (process_wallet clock wallet_data) = None
  /\ has_key "zscore" (fst (process_wallet clock wallet_data)) = true
  /\ exists z features df,
      process_wallet_complete (datetime_now clock) wallet_data
      = Ok (z, Complete features, df)
      /\ z == (6 # 10) * (250 + Qmin (inject_Z (nunique_pool_id df) * 20) 100)
      /\ 150 <= z
      /\ (some_pool_not_null wallet_data = true -> 162 <= z).
Proof.
  intros H. unfold only_unrecognized_actions in H.
  apply andb_true_iff in H. destruct H as [Hne Hall].
  pose proof (preprocess_as_map wallet_data) as Hdf.
  set (wallet := get (wallet_address wallet_data)) in *.
  assert (Hact : forall name,
             name = "swap" \/ name = "deposit" \/ name = "withdraw" ->
             with_action name (preprocess_dex_transactions wallet_data) = []).
  { intros name Hname. rewrite Hdf. now apply with_action_unrecognized. }
  destruct (preprocess_dex_transactions wallet_data) as [|first rest] eqn:E.
  { destruct (dex_transactions wallet_data); [discriminate Hne | discriminate Hdf]. }
  destruct (process_wallet_success clock _ _ _ E) as (Hnone & Hz & _).
  split; [assumption|]. split; [assumption|].
  exists (fst (scored (datetime_now clock) first rest)),
         (snd (scored (datetime_now clock) first rest)), (first :: rest).
  split; [now apply process_wallet_complete_cons|].
  pose proof (scored_without_actions (datetime_now clock) first rest
                (Hact "swap" (or_introl eq_refl))
                (Hact "deposit" (or_intror (or_introl eq_refl)))
                (Hact "withdraw" (or_intror (or_intror eq_refl)))) as Hscore.
  split; [assumption|].
  set (n := nunique_pool_id (first :: rest)) in *.
  assert (Hn : (0 <= n)%Z) by apply nunique_pool_id_nonneg.
  split.
  - assert (Hm : 0 <= Qmin (inject_Z n * 20) 100).
    { apply Q.min_glb; [|discriminate].
      apply count_scaled_nonneg; [assumption | discriminate]. }
    rewrite Hscore. lra.
  - intros Hpool.
    assert (Hn1 : (1 <= n)%Z).
    { apply nunique_pool_id_positive. rewrite Hdf.
      unfold some_pool_not_null in Hpool.
      apply existsb_exists in Hpool. destruct Hpool as [tx [Hin Htx]].
      apply existsb_exists. exists (preprocess_row wallet tx).
      split; [now apply in_map|].
      rewrite preprocess_row_pool_id. now destruct (poolId tx). }
    assert (Hm : 20 <= Qmin (inject_Z n * 20) 100).
    { apply Q.min_glb; [|discriminate].
      assert (Hq : 1 <= inject_Z n)
        by (change 1 with (inject_Z 1); now rewrite <- Zle_Qle).
      lra. }
    rewrite Hscore. lra.
Qed.

Definition transfer_message : WalletMessage :=
  mkWalletMessage (Val "0xabc")
    [ mkProtocolData (Val "dexes")
        [ mkDexTransaction (Val "t1") (Val "transfer") 1703980900 (Val "uniswap_v3")
                           (Val "pool-1") (Val "USDC/WETH") Absent Absent Absent Absent ] ].

Lemma unrecognized_only_is_scored_witness :
  only_unrecognized_actions transfer_message = true
  /\ snd (process_wallet sample_clock transfer_message) = None.
Proof.
  split; [reflexivity|].
  exact (proj1 (unrecognized_only_is_scored sample_clock transfer_message eq_refl)).
Defined.

(** ** The consume loop *)

(** C1 on the code: when scoring a message raises, the loop counts the
    message as consumed and failed and goes on with the next message, but it
    hands nothing to the producer: no send is attempted for that message. *)
Theorem consume_scoring_failure_sends_nothing
        (Message Score : Type)
        (wallet_of : Message -> option string)
        (score_wallet : Message -> result Score)
        (send_and_wait : nat -> option string * Score -> result unit)
        (r : Runner Score) (wallet_data : Message) (e : string)
        (rest : list (Inbound Message)) :
  score_wallet wallet_data = Raise e ->
  let r' := consume_one Message Score wallet_of score_wallet send_and_wait r wallet_data in
  total_failed (stats r') = (total_failed (stats r) + 1)%Z
  /\ total_consumed (stats r') = (total_consumed (stats r) + 1)%Z
  /\ total_scored (stats r') = total_scored (stats r)
  /\ total_produced (stats r') = total_produced (stats r)
  /\ attempted r' = attempted r
  /\ delivered r' = delivered r
  /\ consume Message Score wallet_of score_wallet send_and_wait r (Msg wallet_data :: rest)
     = consume Message Score wallet_of score_wallet send_and_wait r' rest.
Proof.
  intros H. cbv zeta. unfold consume_one. rewrite H. cbn.
  repeat split. unfold consume_one. rewrite H. reflexivity.
Qed.

Definition always_raises (wallet_data : WalletMessage) : result Q :=
  Raise "scoring failed".

Definition send_ok (n : nat) (message : option string * Q) : result unit := Ok tt.

Definition fresh_runner : Runner Q := mkRunner (mkStats 0 0 0 0) [] [].

Lemma consume_scoring_failure_sends_nothing_witness :
  always_raises SAMPLE_WALLET_MESSAGE = Raise "scoring failed"
  /\ attempted
       (fst (consume WalletMessage Q (fun w => get (wallet_address w)) always_raises
                     send_ok fresh_runner [Msg SAMPLE_WALLET_MESSAGE])) = []
  /\ total_failed
       (stats (consume_one WalletMessage Q (fun w => get (wallet_address w))
                           always_raises send_ok fresh_runner SAMPLE_WALLET_MESSAGE))
     = 1%Z.
Proof.
  split; [reflexivity|].
  pose proof (consume_scoring_failure_sends_nothing
                WalletMessage Q (fun w => get (wallet_address w)) always_raises send_ok
                fresh_runner SAMPLE_WALLET_MESSAGE "scoring failed" [] eq_refl) as H.
  cbv zeta in H. destruct H as (Hf & _ & _ & _ & Ha & _ & Hc).
  split; [rewrite Hc; exact Ha | exact Hf].
Defined.

(** * Further properties of the model *)

(** ** Normalization *)

(** X1: The frame has one row per transaction of the DEX-tagged groups, in input
    order, whatever the action; each row carries the transaction's timestamp
    and action and the wallet address of the message. *)
Theorem preprocess_one_row_per_dex_transaction (wallet_data : WalletMessage) :
  let df := preprocess_dex_transactions wallet_data in
  let txs := dex_transactions wallet_data in
  List.length df = List.length txs
  /\ map row_timestamp df = map timestamp txs
  /\ map row_action df = map (fun tx => get (action tx)) txs
  /\ Forall (fun r => row_wallet_address r = get (wallet_address wallet_data)) df.
Proof.
  cbv zeta. rewrite preprocess_as_map.
  set (wallet := get (wallet_address wallet_data)).
  induction (dex_transactions wallet_data) as [|tx rest IH]; simpl.
  - repeat split. constructor.
  - destruct IH as (Hlen & Hts & Hact & Haddr).
    rewrite Hlen, Hts, Hact, preprocess_row_action.
    repeat split.
    + f_equal. unfold preprocess_row. cbv zeta.
      repeat match goal with |- context [if ?b then _ else _] => destruct b end;
        reflexivity.
    + constructor; [|assumption].
      unfold preprocess_row. cbv zeta.
      repeat match goal with |- context [if ?b then _ else _] => destruct b end;
        reflexivity.
Qed.

(** X2: A row has no [amount_usd] exactly when its action is none of swap,
    deposit and withdraw. *)
Theorem preprocess_row_amount_missing_iff (wallet : option string) (tx : DexTransaction) :
  row_amount_usd (preprocess_row wallet tx) = None <-> unrecognized tx = true.
Proof.
  unfold preprocess_row, unrecognized. cbv zeta.
  destruct (action_is "swap" (get (action tx)));
    destruct (action_is "deposit" (get (action tx)));
    destruct (action_is "withdraw" (get (action tx)));
    cbn; split; intros H; try reflexivity; discriminate.
Qed.

(** The USD value read for a token leg: 0 for an absent or [null] token
    object and for an absent or [null] [amountUSD]. *)
Definition leg_usd (f : field TokenAmount) : Q := amount_usd_of (token_or_empty f).

Definition legs_nonneg (tx : DexTransaction) : bool :=
  Qle_bool 0 (leg_usd (tokenIn tx)) && Qle_bool 0 (leg_usd (tokenOut tx))
  && Qle_bool 0 (leg_usd (token0 tx)) && Qle_bool 0 (leg_usd (token1 tx)).

Lemma preprocess_row_amount_nonneg (wallet : option string) (tx : DexTransaction) :
  legs_nonneg tx = true ->
  match row_amount_usd (preprocess_row wallet tx) with
  | Some q => Qle_bool 0 q
  | None => true
  end = true.
Proof.
  unfold legs_nonneg, leg_usd. intros H.
  apply andb_true_iff in H. destruct H as [H H1].
  apply andb_true_iff in H. destruct H as [H H0].
  apply andb_true_iff in H. destruct H as [Hin Hout].
  apply Qle_bool_iff in Hin, Hout, H0, H1.
  unfold preprocess_row. cbv zeta.
  repeat match goal with |- context [if ?b then _ else _] => destruct b end;
    cbn [row_amount_usd]; try reflexivity; apply Qle_bool_iff.
  - eapply Qle_trans; [exact Hin | apply Q.le_max_l].
  - change 0 with (0 + 0). now apply Qplus_le_compat.
Qed.

(** X3: When no token leg of a DEX transaction has a negative USD value, no row
    of the frame has a negative [amount_usd]. *)
Theorem nonneg_legs_give_nonneg_amounts (wallet_data : WalletMessage) :
  forallb legs_nonneg (dex_transactions wallet_data) = true ->
  amounts_nonneg (preprocess_dex_transactions wallet_data) = true.
Proof.
  rewrite preprocess_as_map. unfold amounts_nonneg.
  induction (dex_transactions wallet_data) as [|tx rest IH]; simpl; intros H.
  - reflexivity.
  - apply andb_true_iff in H. destruct H as [Htx Hrest].
    rewrite (IH Hrest), andb_true_r.
    now apply preprocess_row_amount_nonneg.
Qed.

Lemma nonneg_legs_give_nonneg_amounts_witness :
  forallb legs_nonneg (dex_transactions SAMPLE_WALLET_MESSAGE) = true
  /\ amounts_nonneg (preprocess_dex_transactions SAMPLE_WALLET_MESSAGE) = true.
Proof.
  split; [reflexivity|].
  apply (nonneg_legs_give_nonneg_amounts SAMPLE_WALLET_MESSAGE). reflexivity.
Defined.

(** ** LP features *)

Lemma timestamp_min_le_max (first : Row) (rest : DataFrame) :
  (timestamp_min first rest <= timestamp_max first rest)%Z.
Proof.
  unfold timestamp_min, timestamp_max.
  induction rest as [|r rest IH]; simpl; lia.
Qed.

(** X4: The account age is never negative, whatever the order of the rows. *)
Theorem account_age_days_nonneg (current_time : Q) (df : DataFrame) :
  match calculate_lp_features current_time df with
  | Ok (Some f) => 0 <= account_age_days f
  | Ok None => df = []
  | Raise _ => False
  end.
Proof.
  destruct df as [|first rest]; [reflexivity|].
  rewrite calculate_lp_features_cons. unfold lp_features_of. cbn -[with_action].
  apply Qdiv_nonneg; [|discriminate].
  pose proof (timestamp_min_le_max first rest) as H.
  rewrite Zle_Qle in H. lra.
Qed.

Lemma filter_exclusive_length {A : Type} (p q : A -> bool) (l : list A) :
  (forall x, p x = true -> q x = false) ->
  (List.length (filter p l) + List.length (filter q l) <= List.length l)%nat.
Proof.
  intros Hex. induction l as [|x l IH]; simpl; [lia|].
  destruct (p x) eqn:Ep.
  - rewrite (Hex x Ep). simpl. lia.
  - destruct (q x); simpl; lia.
Qed.

Lemma deposit_is_not_withdraw (a : option string) :
  action_is "deposit" a = true -> action_is "withdraw" a = false.
Proof.
  destruct a as [s|]; cbn [action_is]; [|discriminate].
  intros H. apply String.eqb_eq in H. now subst s.
Qed.

(** X5: Deposit rows and withdraw rows are disjoint parts of the frame: the two
    counts are non-negative and together never exceed the number of rows. *)
Theorem deposits_withdraws_disjoint (current_time : Q) (df : DataFrame) :
  match calculate_lp_features current_time df with
  | Ok (Some f) =>
      (0 <= num_deposits f)%Z /\ (0 <= num_withdraws f)%Z
      /\ (num_deposits f + num_withdraws f <= len df)%Z
  | Ok None => df = []
  | Raise _ => False
  end.
Proof.
  destruct df as [|first rest]; [reflexivity|].
  rewrite calculate_lp_features_cons. unfold lp_features_of. cbn -[with_action len].
  split; [apply len_nonneg|]. split; [apply len_nonneg|].
  unfold len, with_action.
  pose proof (filter_exclusive_length
                (fun r => action_is "deposit" (row_action r))
                (fun r => action_is "withdraw" (row_action r))
                (first :: rest)
                (fun r => deposit_is_not_withdraw (row_action r))) as H.
  lia.
Qed.

(** ** LP score *)

(** X6: Each clamped LP component sits exactly at its cap once its input has
    reached the threshold (10000 USD deposited, 10 deposits, 30 days held,
    5 pools); retention is 0 once the withdraw ratio has reached 1 and is
    the full 250 for a ratio of 0. *)
Theorem lp_components_saturate (f : LPFeatures) (b : LPBreakdown) :
  snd (calculate_lp_score (Some f)) = Some b ->
  (10000 <= total_deposit_usd f -> lp_volume_score b == 300)
  /\ ((10 <= num_deposits f)%Z -> lp_frequency_score b == 200)
  /\ (30 <= avg_hold_time_days f -> lp_holding_score b == 150)
  /\ ((5 <= unique_pools f)%Z -> lp_diversity_score b == 100)
  /\ (1 <= withdraw_ratio f -> lp_retention_score b == 0)
  /\ (withdraw_ratio f == 0 -> lp_retention_score b == 250).
Proof.
  intros H. cbn in H. injection H as <-. cbn.
  repeat apply conj.
  - intros Hx. apply Q.min_r.
    change 10000 with (inject_Z 10000). rewrite Qdiv_const.
    change (inject_Z 10000) with 10000 in Hx. lra.
  - intros Hn. apply Q.min_r.
    rewrite Zle_Qle in Hn. change (inject_Z 10) with 10 in Hn. lra.
  - intros Hx. apply Q.min_r.
    change 30 with (inject_Z 30). rewrite Qdiv_const.
    change (inject_Z 30) with 30 in Hx. lra.
  - intros Hn. apply Q.min_r.
    rewrite Zle_Qle in Hn. change (inject_Z 5) with 5 in Hn. lra.
  - intros Hr. apply Q.max_l. lra.
  - intros Hr. rewrite Q.max_r; lra.
Qed.

Lemma lp_components_saturate_witness :
  exists b,
    snd (calculate_lp_score (Some (mkLPFeatures 10000000 0 12 0 0 45 45 6))) = Some b
    /\ lp_volume_score b == 300 /\ lp_holding_score b == 150.
Proof.
  eexists.
  assert (H : snd (calculate_lp_score (Some (mkLPFeatures 10000000 0 12 0 0 45 45 6)))
              = Some _) by reflexivity.
  split; [exact H|].
  destruct (lp_components_saturate _ _ H) as (Hv & _ & Hh & _).
  split; [apply Hv | apply Hh]; discriminate.
Defined.

Lemma Qdiv_ge_1 (a b : Q) : 0 < b -> b <= a -> 1 <= a / b.
Proof.
  intros Hb Hab. apply Qle_shift_div_l; [assumption | lra].
Qed.

(** X7: A wallet that has withdrawn at least as much as the positive amount it
    deposited gets a retention component of 0. *)
Theorem full_withdrawal_zero_retention (current_time : Q) (df : DataFrame) :
  match calculate_lp_features current_time df with
  | Ok (Some f) =>
      0 < total_deposit_usd f ->
      total_deposit_usd f <= total_withdraw_usd f ->
      match snd (calculate_lp_score (Some f)) with
      | Some b => lp_retention_score b == 0
      | None => False
      end
  | Ok None => df = []
  | Raise _ => False
  end.
Proof.
  destruct df as [|first rest]; [reflexivity|].
  rewrite calculate_lp_features_cons.
  unfold lp_features_of. cbv zeta. cbn -[with_action].
  set (td := if empty (with_action "deposit" (first :: rest)) then 0 else _).
  set (tw := if empty (with_action "withdraw" (first :: rest)) then 0 else _).
  intros Hpos Hle. apply Q.max_l.
  unfold ratio_or_0. apply Qltb_lt in Hpos as Hb. rewrite Hb.
  pose proof (Qdiv_ge_1 tw td Hpos Hle). lra.
Qed.

(** ** Holding time *)

Lemma timestamp_min_le (first : Row) (rest : DataFrame) (r : Row) :
  In r (first :: rest) -> (timestamp_min first rest <= row_timestamp r)%Z.
Proof.
  unfold timestamp_min. induction rest as [|x rest IH]; simpl.
  - intros [-> | []]. lia.
  - intros [-> | [-> | Hin]].
    + specialize (IH (or_introl eq_refl)). lia.
    + lia.
    + specialize (IH (or_intror Hin)). lia.
Qed.


Definition row_at (act : string) (ts : Z) : Row :=
  mkRow None None (Some act) ts None (Some "pool-1") None (Some 100)
        None None None None.


(** X9: A withdraw stamped at or before the deposit does not close it: with no
    strictly later withdraw the holding time runs to the clock reading. *)
Theorem holding_time_open_deposit
        (current_time : Q) (withdraws : DataFrame) (deposit : Row) :
  (forall w, In w withdraws -> (row_timestamp w <= row_timestamp deposit)%Z) ->
  holding_time_days current_time withdraws deposit
  = (current_time - inject_Z (row_timestamp deposit)) / 86400.
Proof.
  intros H. unfold holding_time_days. cbv zeta.
  destruct (filter _ withdraws) as [|x xs] eqn:E; [reflexivity|].
  assert (Hx : In x (x :: xs)) by (left; reflexivity).
  rewrite <- E in Hx. apply filter_In in Hx. destruct Hx as [Hin Hlt].
  apply Qltb_lt in Hlt. rewrite <- Zlt_Qlt in Hlt.
  specialize (H x Hin). lia.
Qed.

Lemma holding_time_open_deposit_witness :
  holding_time_days 86400 [row_at "withdraw" 0] (row_at "deposit" 0)
  = (86400 - inject_Z 0) / 86400.
Proof.
  apply (holding_time_open_deposit 86400 [row_at "withdraw" 0] (row_at "deposit" 0)).
  intros w [<- | []]. simpl. lia.
Defined.

(** ** Swap features and score *)

(** The distinct token symbols of the swap rows, as [_token_diversity]
    collects them. *)
Definition swap_tokens (swaps : DataFrame) : list string :=
  nodup string_dec (distinct (map row_token_in_symbol swaps)
                    ++ distinct (map row_token_out_symbol swaps)).

(** X10: A token-diversity score above 100, the threshold of the tag
    "Diversified Trader", takes at least 7 distinct token symbols. *)
Theorem token_diversity_above_100_needs_7_tokens (swaps : DataFrame) :
  (100 < _token_diversity swaps)%Z ->
  (7 <= List.length (swap_tokens swaps))%nat.
Proof.
  unfold _token_diversity, swap_tokens. destruct (empty swaps); [lia|]. cbv zeta.
  set (all_tokens := nodup string_dec _).
  pose proof (filter_length_le (fun t => mem_string t stable_tokens) all_tokens) as Hle.
  lia.
Qed.

Definition swap_row (tin tout : string) (ts : Z) : Row :=
  mkRow None None (Some "swap") ts None (Some "pool-1") None (Some 100)
        (Some tin) (Some tout) None None.

Definition seven_token_swaps : DataFrame :=
  [ swap_row "WETH" "WBTC" 0; swap_row "LINK" "UNI" 10; swap_row "AAVE" "CRV" 20;
    swap_row "MKR" "WETH" 30 ].

Lemma token_diversity_above_100_needs_7_tokens_witness :
  (100 < _token_diversity seven_token_swaps)%Z
  /\ (7 <= List.length (swap_tokens seven_token_swaps))%nat.
Proof.
  split; [reflexivity|].
  apply (token_diversity_above_100_needs_7_tokens seven_token_swaps). reflexivity.
Defined.

(** X11: The activity score is 0 for fewer than two swaps and one of the five
    bucket values otherwise, so at least 20. *)
Theorem swap_frequency_buckets (swaps : DataFrame) :
  ((len swaps < 2)%Z -> _swap_frequency swaps = 0)
  /\ ((2 <= len swaps)%Z -> In (_swap_frequency swaps) [100; 80; 60; 40; 20]).
Proof.
  unfold _swap_frequency. split; intros H.
  - destruct (empty swaps); [reflexivity|].
    apply Z.ltb_lt in H. now rewrite H.
  - assert (E1 : empty swaps = false).
    { destruct swaps; [unfold len in H; simpl in H; lia | reflexivity]. }
    assert (E2 : (len swaps <? 2)%Z = false) by (apply Z.ltb_ge; lia).
    rewrite E1, E2. cbn [orb].
    repeat match goal with |- context [if ?b then _ else _] => destruct b end;
      simpl; tauto.
Qed.

(** X13: The swap score never exceeds 800 (250 + 200 + 150 + 100 + 100), whatever
    the rows hold. *)
Theorem swap_score_at_most_800 (df : DataFrame) :
  match calculate_swap_features df with
  | Ok swap_features => fst (calculate_swap_score swap_features) <= 800
  | Raise _ => False
  end.
Proof.
  destruct df as [|first rest]; [cbn; discriminate|].
  rewrite calculate_swap_features_cons.
  unfold swap_features_of.
  destruct (empty (with_action "swap" (first :: rest))); [cbn; discriminate|].
  set (swaps := with_action "swap" (first :: rest)).
  unfold calculate_swap_score.
  cbn [fst total_swap_volume num_swaps unique_pools_swapped token_diversity_score
       swap_frequency_score].
  pose proof (Q.le_min_r (sum_amount_usd swaps / 50000 * 250) 250) as H1.
  pose proof (Q.le_min_r (inject_Z (len swaps) * 10) 200) as H2.
  pose proof (Q.le_min_r (inject_Z (nunique_pool_id swaps) * 25) 100) as H3.
  pose proof (proj2 (_token_diversity_range swaps)) as H4.
  rewrite Zle_Qle in H4. change (inject_Z 150) with 150 in H4.
  pose proof (proj2 (_swap_frequency_range swaps)) as H5.
  lra.
Qed.

(** ** Swap frequency and the order of the rows *)

Lemma insert_sorted_perm (x : Z) (l : list Z) :
  Permutation (insert_sorted x l) (x :: l).
Proof.
  induction l as [|y rest IH]; simpl; [constructor; constructor|].
  destruct (x <=? y)%Z; [apply Permutation_refl|].
  eapply perm_trans; [apply perm_skip, IH | apply perm_swap].
Qed.

Lemma sort_timestamps_perm (l : list Z) : Permutation (sort_timestamps l) l.
Proof.
  induction l as [|x rest IH]; simpl; [constructor|].
  eapply perm_trans; [apply insert_sorted_perm | now apply perm_skip].
Qed.

Lemma insert_sorted_sorted (x : Z) (l : list Z) :
  StronglySorted Z.le l -> StronglySorted Z.le (insert_sorted x l).
Proof.
  induction 1 as [|y rest Hs IH Hall]; simpl.
  - repeat constructor.
  - destruct (x <=? y)%Z eqn:E.
    + apply Z.leb_le in E. constructor; [now constructor|].
      constructor; [assumption|].
      eapply Forall_impl; [|exact Hall]. intros z Hz. cbv beta in Hz. lia.
    + apply Z.leb_gt in E. constructor; [assumption|].
      apply (Permutation_Forall (Permutation_sym (insert_sorted_perm x rest))).
      constructor; [lia | assumption].
Qed.

Lemma sort_timestamps_sorted (l : list Z) : StronglySorted Z.le (sort_timestamps l).
Proof.
  induction l as [|x rest IH]; simpl; [constructor|].
  now apply insert_sorted_sorted.
Qed.

Lemma sorted_head_le (a : Z) (t : list Z) (b : Z) :
  StronglySorted Z.le (a :: t) -> In b (a :: t) -> (a <= b)%Z.
Proof.
  intros Hs Hin. inversion Hs as [|? ? _ Hall]; subst.
  destruct Hin as [<- | Hin]; [lia|].
  rewrite Forall_forall in Hall. now apply Hall.
Qed.

(** Two sorted lists with the same entries are the same list. *)
Lemma sorted_perm_unique (l1 l2 : list Z) :
  StronglySorted Z.le l1 -> StronglySorted Z.le l2 -> Permutation l1 l2 -> l1 = l2.
Proof.
  revert l2. induction l1 as [|a t1 IH]; intros l2 S1 S2 P.
  - apply Permutation_nil in P. now subst.
  - destruct l2 as [|b t2].
    { apply Permutation_sym, Permutation_nil in P. discriminate. }
    assert (Hab : (a <= b)%Z).
    { apply (sorted_head_le a t1 b S1).
      apply (Permutation_in b (Permutation_sym P)). now left. }
    assert (Hba : (b <= a)%Z).
    { apply (sorted_head_le b t2 a S2).
      apply (Permutation_in a P). now left. }
    assert (a = b) by lia. subst b. f_equal.
    inversion S1; inversion S2; subst.
    apply IH; try assumption.
    now apply Permutation_cons_inv in P.
Qed.

Lemma sort_timestamps_of_perm (l1 l2 : list Z) :
  Permutation l1 l2 -> sort_timestamps l1 = sort_timestamps l2.
Proof.
  intros P. apply sorted_perm_unique; try apply sort_timestamps_sorted.
  eapply perm_trans; [apply sort_timestamps_perm|].
  eapply perm_trans; [exact P|].
  apply Permutation_sym, sort_timestamps_perm.
Qed.

(** X12: the activity score does not depend on the order of the swap rows:
    the timestamps are sorted before the gaps are taken, so two frames with
    the same rows in a different order get the same score. *)
Theorem swap_frequency_row_order_irrelevant (swaps1 swaps2 : DataFrame) :
  Permutation swaps1 swaps2 ->
  _swap_frequency swaps1 = _swap_frequency swaps2.
Proof.
  intros P. unfold _swap_frequency.
  assert (Hlen : len swaps1 = len swaps2).
  { unfold len. now rewrite (Permutation_length P). }
  assert (Hempty : empty swaps1 = empty swaps2).
  { destruct swaps1, swaps2; try reflexivity.
    - apply Permutation_nil in P. discriminate.
    - apply Permutation_sym, Permutation_nil in P. discriminate. }
  rewrite Hempty, Hlen.
  rewrite (sort_timestamps_of_perm (map row_timestamp swaps1)
                                   (map row_timestamp swaps2));
    [reflexivity | now apply Permutation_map].
Qed.

Lemma swap_frequency_row_order_irrelevant_witness :
  _swap_frequency [swap_row "WETH" "USDC" 7200; swap_row "USDC" "DAI" 0;
                   swap_row "DAI" "WETH" 3600]
  = _swap_frequency [swap_row "USDC" "DAI" 0; swap_row "DAI" "WETH" 3600;
                     swap_row "WETH" "USDC" 7200].
Proof.
  apply (swap_frequency_row_order_irrelevant
           [swap_row "WETH" "USDC" 7200; swap_row "USDC" "DAI" 0;
            swap_row "DAI" "WETH" 3600]
           [swap_row "USDC" "DAI" 0; swap_row "DAI" "WETH" 3600;
            swap_row "WETH" "USDC" 7200]).
  eapply perm_trans; [apply perm_swap|]. apply perm_skip. apply perm_swap.
Defined.

(** ** Timestamps of a frame *)

Definition timestamps (df : DataFrame) : list Z := map row_timestamp df.

Lemma timestamp_min_In_timestamps (first : Row) (rest : DataFrame) :
  In (timestamp_min first rest) (timestamps (first :: rest)).
Proof.
  destruct (timestamp_min_In first rest) as [r [Hin ->]].
  unfold timestamps. now apply in_map.
Qed.

Lemma timestamp_min_le_all (first : Row) (rest : DataFrame) (z : Z) :
  In z (timestamps (first :: rest)) -> (timestamp_min first rest <= z)%Z.
Proof.
  unfold timestamps. intros Hin. apply in_map_iff in Hin.
  destruct Hin as [r [<- Hr]]. now apply timestamp_min_le.
Qed.

(** ** Tags and thresholds *)

Ltac tag_cases H :=
  simpl in H;
  repeat match type of H with
         | _ \/ _ => destruct H as [H | H]
         | False => destruct H
         end.

Lemma in_holding_tag (tag : string) (ht : Q) :
  In tag (holding_tag ht) ->
  In tag ["Long-term Holder"; "Medium-term Holder"; "Short-term Holder"].
Proof.
  pose proof (holding_tag_cases ht) as H. tag_cases H; rewrite <- H; simpl; tauto.
Qed.

Lemma in_swap_volume_tag (tag : string) (sv : Q) :
  In tag (swap_volume_tag sv) ->
  In tag ["Whale Trader"; "Large Trader"; "Active Trader"; "Casual Trader"].
Proof.
  pose proof (swap_volume_tag_cases sv) as H. tag_cases H; rewrite <- H; simpl; tauto.
Qed.

Lemma in_frequency_tag (tag : string) (n : Z) :
  In tag (frequency_tag n) -> In tag ["High Frequency Trader"; "Regular Trader"].
Proof.
  pose proof (frequency_tag_cases n) as H. tag_cases H; rewrite <- H; simpl; tauto.
Qed.

Lemma in_diversity_tag (tag : string) (d p : Z) :
  In tag (diversity_tag d p) -> In tag ["Diversified Trader"; "Multi-Pool LP"].
Proof.
  pose proof (diversity_tag_cases d p) as H. tag_cases H; rewrite <- H; simpl; tauto.
Qed.

Lemma in_lp_level_tag (tag : string) (td : Q) :
  In tag (lp_level_tag td) ->
  In tag ["Whale LP"; "Large LP"; "Medium LP"; "Small LP"].
Proof.
  pose proof (lp_level_tag_cases td) as H. tag_cases H; rewrite <- H; simpl; tauto.
Qed.

(** An LP size tag can only come from the first [if]/[elif] chain. *)
Lemma lp_size_tag_origin (tag : string)
      (lp_features : option LPFeatures) (swap_features : option SwapFeatures) :
  In tag ["Whale LP"; "Large LP"; "Medium LP"; "Small LP"] ->
  (In tag (generate_user_tags lp_features swap_features)
   <-> In tag (lp_level_tag (feature_or_0 total_deposit_usd lp_features))).
Proof.
  intros Htag. unfold generate_user_tags. rewrite !in_app_iff.
  split; [|tauto].
  intros [H | [H | [H | [H | H]]]]; [assumption | exfalso ..].
  - apply in_holding_tag in H. tag_cases Htag; subst tag; tag_cases H; discriminate.
  - apply in_swap_volume_tag in H. tag_cases Htag; subst tag; tag_cases H; discriminate.
  - apply in_frequency_tag in H. tag_cases Htag; subst tag; tag_cases H; discriminate.
  - apply in_diversity_tag in H. tag_cases Htag; subst tag; tag_cases H; discriminate.
Qed.

Ltac qltb_facts :=
  repeat match goal with
         | H : Qltb _ _ = true |- _ => apply Qltb_lt in H
         | H : Qltb _ _ = false |- _ => apply Qltb_ge in H
         end.

Ltac in_singleton_iff :=
  split;
  [ let H := fresh "H" in
    intros H; simpl in H;
    first [ destruct H as [H | H];
            [ first [ discriminate H | split; lra | lra ] | destruct H ]
          | destruct H ]
  | let H := fresh "H" in
    intros H;
    first [ left; reflexivity
          | exfalso; destruct H; lra
          | exfalso; lra ] ].

Lemma lp_level_tag_spec (td : Q) :
  (In "Whale LP" (lp_level_tag td) <-> 100000 < td)
  /\ (In "Large LP" (lp_level_tag td) <-> 10000 < td <= 100000)
  /\ (In "Medium LP" (lp_level_tag td) <-> 1000 < td <= 10000)
  /\ (In "Small LP" (lp_level_tag td) <-> 0 < td <= 1000).
Proof.
  unfold lp_level_tag.
  destruct (Qltb 100000 td) eqn:E1; destruct (Qltb 10000 td) eqn:E2;
    destruct (Qltb 1000 td) eqn:E3; destruct (Qltb 0 td) eqn:E4;
    qltb_facts; (split; [|split; [|split]]); in_singleton_iff.
Qed.

(** X15: The LP size tag is decided by the deposited total alone, with strict
    lower thresholds: "Whale LP" above 100000, "Large LP" in (10000, 100000],
    "Medium LP" in (1000, 10000], "Small LP" in (0, 1000], and none at 0 or
    below. *)
Theorem lp_size_tag_thresholds
        (lp_features : option LPFeatures) (swap_features : option SwapFeatures) :
  let td := feature_or_0 total_deposit_usd lp_features in
  let tags := generate_user_tags lp_features swap_features in
  (In "Whale LP" tags <-> 100000 < td)
  /\ (In "Large LP" tags <-> 10000 < td <= 100000)
  /\ (In "Medium LP" tags <-> 1000 < td <= 10000)
  /\ (In "Small LP" tags <-> 0 < td <= 1000).
Proof.
  cbv zeta.
  rewrite !lp_size_tag_origin by (simpl; tauto).
  apply lp_level_tag_spec.
Qed.

(** X16: "Diversified Trader" and "Multi-Pool LP" come from one [if]/[elif]: the
    tag list never holds both, and a diversity score above 100 suppresses
    "Multi-Pool LP" however many pools the wallet uses. *)
Theorem diversified_excludes_multi_pool
        (lp_features : option LPFeatures) (swap_features : option SwapFeatures) :
  let tags := generate_user_tags lp_features swap_features in
  ~ (In "Diversified Trader" tags /\ In "Multi-Pool LP" tags)
  /\ ((100 < int_feature_or_0 token_diversity_score swap_features)%Z ->
      ~ In "Multi-Pool LP" tags).
Proof.
  cbv zeta.
  assert (Horigin : forall tag,
             In tag ["Diversified Trader"; "Multi-Pool LP"] ->
             In tag (generate_user_tags lp_features swap_features) ->
             In tag (diversity_tag
                       (int_feature_or_0 token_diversity_score swap_features)
                       (int_feature_or_0 unique_pools lp_features))).
  { intros tag Htag. unfold generate_user_tags. rewrite !in_app_iff.
    intros [H | [H | [H | [H | H]]]]; [exfalso .. | assumption].
    - apply in_lp_level_tag in H. tag_cases Htag; subst tag; tag_cases H; discriminate.
    - apply in_holding_tag in H. tag_cases Htag; subst tag; tag_cases H; discriminate.
    - apply in_swap_volume_tag in H. tag_cases Htag; subst tag; tag_cases H; discriminate.
    - apply in_frequency_tag in H. tag_cases Htag; subst tag; tag_cases H; discriminate. }
  split.
  - intros [Hd Hm].
    apply Horigin in Hd; [|simpl; tauto]. apply Horigin in Hm; [|simpl; tauto].
    unfold diversity_tag in Hd, Hm.
    destruct (100 <? _)%Z; [tag_cases Hm; discriminate|].
    destruct (3 <? _)%Z; tag_cases Hd; discriminate.
  - intros Hdiv Hm. apply Horigin in Hm; [|simpl; tauto].
    unfold diversity_tag in Hm. apply Z.ltb_lt in Hdiv. rewrite Hdiv in Hm.
    tag_cases Hm. discriminate.
Qed.

(** ** The pipeline and its payloads *)

(** [payload[key]] when the key is present. *)
Fixpoint payload_get (key : string) (payload : Payload) : option json :=
  match payload with
  | [] => None
  | (k, v) :: rest => if String.eqb k key then Some v else payload_get key rest
  end.



Lemma preprocess_row_timestamp (wallet : option string) (tx : DexTransaction) :
  row_timestamp (preprocess_row wallet tx) = timestamp tx.
Proof.
  unfold preprocess_row. cbv zeta.
  repeat match goal with |- context [if ?b then _ else _] => destruct b end;
    reflexivity.
Qed.

Lemma preprocess_length (wallet_data : WalletMessage) :
  List.length (preprocess_dex_transactions wallet_data)
  = List.length (dex_transactions wallet_data).
Proof. rewrite preprocess_as_map. apply length_map. Qed.

Lemma preprocess_timestamps (wallet_data : WalletMessage) :
  timestamps (preprocess_dex_transactions wallet_data)
  = map timestamp (dex_transactions wallet_data).
Proof.
  rewrite preprocess_as_map. unfold timestamps. rewrite map_map.
  apply map_ext. intros tx. apply preprocess_row_timestamp.
Qed.




(** X20: The [timestamp] of a success payload is the earliest timestamp among the
    DEX transactions: it is the timestamp of one of them and at most the
    timestamp of each. *)
Theorem process_wallet_timestamp_is_earliest
        (clock : Clock) (wallet_data : WalletMessage) :
  dex_transactions wallet_data <> [] ->
  exists ts,
    payload_get "timestamp" (fst (process_wallet clock wallet_data)) = Some (JInt ts)
    /\ In ts (map timestamp (dex_transactions wallet_data))
    /\ Forall (fun tx => (ts <= timestamp tx)%Z) (dex_transactions wallet_data).
Proof.
  intros Hne.
  pose proof (preprocess_length wallet_data) as Hlen.
  pose proof (preprocess_timestamps wallet_data) as Hts.
  destruct (preprocess_dex_transactions wallet_data) as [|first rest] eqn:Hdf.
  { destruct (dex_transactions wallet_data); [now elim Hne | discriminate]. }
  exists (timestamp_min first rest). repeat split.
  - unfold process_wallet.
    rewrite (process_wallet_complete_cons _ _ _ _ Hdf). reflexivity.
  - rewrite <- Hts. apply (timestamp_min_In_timestamps first rest).
  - apply Forall_forall. intros tx Hin.
    apply timestamp_min_le_all. rewrite Hts. now apply in_map.
Qed.

Lemma process_wallet_timestamp_is_earliest_witness :
  dex_transactions SAMPLE_WALLET_MESSAGE <> []
  /\ exists ts,
      payload_get "timestamp" (fst (process_wallet sample_clock SAMPLE_WALLET_MESSAGE))
      = Some (JInt ts)
      /\ In ts (map timestamp (dex_transactions SAMPLE_WALLET_MESSAGE))
      /\ Forall (fun tx => (ts <= timestamp tx)%Z)
                (dex_transactions SAMPLE_WALLET_MESSAGE).
Proof.
  assert (H : dex_transactions SAMPLE_WALLET_MESSAGE <> []) by discriminate.
  split; [exact H|].
  exact (process_wallet_timestamp_is_earliest sample_clock SAMPLE_WALLET_MESSAGE H).
Defined.

(** X21: when the scored frame has no swap row, the swap score of its
    swap features is 0 and the final score is 0.6 times the score
    [calculate_lp_score] gives to the LP features extracted from the
    frame. *)
Theorem final_score_without_swaps
        (current_time : Q) (wallet_data : WalletMessage)
        (z : Q) (features : CompleteFeatures) (df : DataFrame) :
  process_wallet_complete current_time wallet_data = Ok (z, Complete features, df) ->
  with_action "swap" df = [] ->
  exists lp_features swap_features,
    calculate_lp_features current_time df = Ok lp_features
    /\ calculate_swap_features df = Ok swap_features
    /\ fst (calculate_swap_score swap_features) == 0
    /\ z == (6 # 10) * fst (calculate_lp_score lp_features).
Proof.
  intros H Hs.
  destruct (preprocess_dex_transactions wallet_data) as [|first rest] eqn:Hdf.
  { rewrite (process_wallet_complete_nil _ _ Hdf) in H. discriminate. }
  rewrite (process_wallet_complete_cons _ _ _ _ Hdf) in H.
  assert (Hz : z = fst (scored current_time first rest)) by congruence.
  assert (Hd : df = first :: rest) by congruence.
  subst z df.
  exists (Some (lp_features_of current_time first rest)),
         (Some (swap_features_of (first :: rest))).
  split; [apply calculate_lp_features_cons|].
  split; [apply calculate_swap_features_cons|].
  assert (Hzero : fst (calculate_swap_score (Some (swap_features_of (first :: rest))))
                  == 0).
  { unfold swap_features_of. rewrite Hs. reflexivity. }
  split; [assumption|].
  rewrite scored_from_frame, Hzero. ring.
Qed.

Lemma final_score_without_swaps_witness :
  exists z features df lp_features,
    process_wallet_complete 1704000000 open_deposit_message
    = Ok (z, Complete features, df)
    /\ with_action "swap" df = []
    /\ calculate_lp_features 1704000000 df = Ok lp_features
    /\ z == (6 # 10) * fst (calculate_lp_score lp_features).
Proof.
  eexists. eexists. eexists.
  assert (H : process_wallet_complete 1704000000 open_deposit_message
              = Ok (_, Complete _, _)) by (vm_compute; reflexivity).
  assert (Hs : with_action "swap" (preprocess_dex_transactions open_deposit_message) = [])
    by reflexivity.
  destruct (final_score_without_swaps _ _ _ _ _ H Hs) as (lpf & swf & Hlp & _ & _ & Hz).
  exists lpf. repeat split; assumption.
Defined.

(** ** The consume loop: counters, order and faults *)

Section ConsumeProperties.

Variable Message : Type.
Variable Score : Type.
Variable wallet_of : Message -> option string.
Variable score_wallet : Message -> result Score.
Variable send_and_wait : nat -> option string * Score -> result unit.

Local Abbreviation step := (consume_one Message Score wallet_of score_wallet send_and_wait).
Local Abbreviation run := (consume Message Score wallet_of score_wallet send_and_wait).

(** The messages the iterator yields before its first fault. *)
Fixpoint messages_before_fault (stream : list (Inbound Message)) : list Message :=
  match stream with
  | Msg wallet_data :: rest => wallet_data :: messages_before_fault rest
  | _ => []
  end.

(** The output built for a message: none when scoring raises. *)
Definition output_of (wallet_data : Message) : list (option string * Score) :=
  match score_wallet wallet_data with
  | Ok score => [(wallet_of wallet_data, score)]
  | Raise _ => []
  end.

Definition outputs_of (messages : list Message) : list (option string * Score) :=
  flat_map output_of messages.

(** What one pass of the loop body changes. *)
Record Progress (r r' : Runner Score) (messages : list Message) : Prop := mkProgress {
  progress_consumed :
    total_consumed (stats r')
    = (total_consumed (stats r) + Z.of_nat (List.length messages))%Z;
  progress_scored :
    total_scored (stats r')
    = (total_scored (stats r) + Z.of_nat (List.length (outputs_of messages)))%Z;
  progress_failed :
    total_failed (stats r')
    = (total_failed (stats r) + Z.of_nat (List.length messages)
       - Z.of_nat (List.length (outputs_of messages)))%Z;
  progress_attempted :
    attempted r' = (attempted r ++ outputs_of messages)%list;
  progress_delivered :
    exists sent,
      delivered r' = (delivered r ++ sent)%list
      /\ total_produced (stats r')
         = (total_produced (stats r) + Z.of_nat (List.length sent))%Z
      /\ (List.length sent <= List.length (outputs_of messages))%nat
}.

Lemma progress_refl (r : Runner Score) : Progress r r [].
Proof.
  constructor; simpl; try lia.
  - now rewrite app_nil_r.
  - exists []. rewrite app_nil_r. simpl. repeat split; lia.
Qed.

Lemma outputs_of_single (wallet_data : Message) :
  outputs_of [wallet_data] = output_of wallet_data.
Proof. unfold outputs_of. cbn [flat_map]. apply app_nil_r. Qed.

Lemma progress_step (r : Runner Score) (wallet_data : Message) :
  Progress r (step r wallet_data) [wallet_data].
Proof.
  constructor; rewrite ?outputs_of_single;
    unfold consume_one, output_of, produce;
    destruct (score_wallet wallet_data) as [score | e];
    cbn [stats attempted delivered];
    try destruct (send_and_wait _ _);
    cbn; try lia; try reflexivity; try (now rewrite app_nil_r).
  - exists [(wallet_of wallet_data, score)]. cbn. repeat split; lia.
  - exists []. rewrite app_nil_r. cbn. repeat split; lia.
  - exists []. rewrite app_nil_r. cbn. repeat split; lia.
Qed.

Lemma progress_trans (r1 r2 r3 : Runner Score) (m1 m2 : list Message) :
  Progress r1 r2 m1 -> Progress r2 r3 m2 -> Progress r1 r3 (m1 ++ m2)%list.
Proof.
  intros [Hc1 Hs1 Hf1 Ha1 (sent1 & Hd1 & Hp1 & Hl1)]
         [Hc2 Hs2 Hf2 Ha2 (sent2 & Hd2 & Hp2 & Hl2)].
  assert (Hout : outputs_of (m1 ++ m2)%list = (outputs_of m1 ++ outputs_of m2)%list)
    by apply flat_map_app.
  constructor; rewrite ?Hout, ?length_app.
  - rewrite Hc2, Hc1. lia.
  - rewrite Hs2, Hs1. lia.
  - rewrite Hf2, Hf1. lia.
  - rewrite Ha2, Ha1. now rewrite app_assoc.
  - exists (sent1 ++ sent2)%list. rewrite Hd2, Hd1, Hp2, Hp1, length_app, app_assoc.
    repeat split; lia.
Qed.

Lemma consume_progress (r : Runner Score) (stream : list (Inbound Message)) :
  Progress r (fst (run r stream)) (messages_before_fault stream).
Proof.
  revert r. induction stream as [|[wallet_data | e] rest IH]; intros r.
  - apply progress_refl.
  - cbn [consume messages_before_fault].
    apply (progress_trans r (step r wallet_data) _ [wallet_data]).
    + apply progress_step.
    + apply IH.
  - apply progress_refl.
Qed.

(** X23: Every message consumed before the first consumer fault is counted once
    as consumed and once as either scored or failed: the three counters
    advance by the number of messages, of messages whose scoring returned,
    and of messages whose scoring raised. *)
Theorem consume_counters (r : Runner Score) (stream : list (Inbound Message)) :
  let r' := fst (run r stream) in
  let messages := messages_before_fault stream in
  total_consumed (stats r')
  = (total_consumed (stats r) + Z.of_nat (List.length messages))%Z
  /\ total_scored (stats r')
     = (total_scored (stats r) + Z.of_nat (List.length (outputs_of messages)))%Z
  /\ (total_consumed (stats r') - total_consumed (stats r)
      = (total_scored (stats r') - total_scored (stats r))
        + (total_failed (stats r') - total_failed (stats r)))%Z.
Proof.
  cbv zeta. destruct (consume_progress r stream) as [Hc Hs Hf _ _].
  repeat split; lia.
Qed.

(** X24: The producer is handed the outputs of the successfully scored messages,
    one each, in the order the messages were consumed. *)
Theorem consume_attempts_in_order (r : Runner Score) (stream : list (Inbound Message)) :
  attempted (fst (run r stream))
  = (attempted r ++ outputs_of (messages_before_fault stream))%list.
Proof. apply (consume_progress r stream). Qed.

(** X25: [total_produced] counts the delivered messages, and never advances more
    than [total_scored]: a message is counted as scored even when its send
    fails. *)
Theorem consume_produced_at_most_scored
        (r : Runner Score) (stream : list (Inbound Message)) :
  let r' := fst (run r stream) in
  exists sent,
    delivered r' = (delivered r ++ sent)%list
    /\ total_produced (stats r')
       = (total_produced (stats r) + Z.of_nat (List.length sent))%Z
    /\ (total_produced (stats r') - total_produced (stats r)
        <= total_scored (stats r') - total_scored (stats r))%Z.
Proof.
  cbv zeta. destruct (consume_progress r stream) as [_ Hs _ _ (sent & Hd & Hp & Hl)].
  exists sent. repeat split; [assumption | assumption | lia].
Qed.

(** X26: A failed send is swallowed by [produce]: the message is handed to the
    producer and counted as scored, not as failed or produced, and the loop
    goes on with the next message. *)
Theorem consume_send_failure_swallowed
        (r : Runner Score) (wallet_data : Message) (score : Score) (e : string)
        (rest : list (Inbound Message)) :
  score_wallet wallet_data = Ok score ->
  send_and_wait (List.length (attempted r)) (wallet_of wallet_data, score) = Raise e ->
  let r' := step r wallet_data in
  total_scored (stats r') = (total_scored (stats r) + 1)%Z
  /\ total_failed (stats r') = total_failed (stats r)
  /\ total_produced (stats r') = total_produced (stats r)
  /\ attempted r' = (attempted r ++ [(wallet_of wallet_data, score)])%list
  /\ delivered r' = delivered r
  /\ run r (Msg wallet_data :: rest) = run r' rest.
Proof.
  intros Hscore Hsend. cbv zeta.
  unfold consume_one at 1 2 3 4 5, produce. cbn [attempted stats delivered].
  rewrite Hscore, Hsend. cbn. repeat split.
Qed.

(** X27: A fault of the consumer iterator ends the loop at once: the messages
    before it are processed as if the stream ended there, and nothing after
    it is consumed. *)
Theorem consume_stops_at_consumer_fault
        (r : Runner Score) (messages : list Message) (e : string)
        (later : list (Inbound Message)) :
  run r (map Msg messages ++ ConsumerFault e :: later)%list
  = (fst (run r (map Msg messages)), Crashed e)
  /\ snd (run r (map Msg messages)) = Exhausted.
Proof.
  revert r. induction messages as [|m rest IH]; intros r.
  - split; reflexivity.
  - cbn [map app consume]. apply IH.
Qed.

(** X28: With a transport whose sends all return, every scored message is
    delivered, in consumption order, and the produced counter advances with
    the scored counter. *)
Theorem consume_reliable_transport
        (r : Runner Score) (stream : list (Inbound Message)) :
  (forall n message, exists u, send_and_wait n message = Ok u) ->
  let r' := fst (run r stream) in
  delivered r' = (delivered r ++ outputs_of (messages_before_fault stream))%list
  /\ (total_produced (stats r') - total_produced (stats r)
      = total_scored (stats r') - total_scored (stats r))%Z.
Proof.
  intros Hsend. cbv zeta. revert r.
  induction stream as [|[wallet_data | e] rest IH]; intros r.
  - cbn. rewrite app_nil_r. split; [reflexivity | lia].
  - cbn [consume messages_before_fault]. destruct (IH (step r wallet_data)) as [Hd Hp].
    rewrite Hd. unfold outputs_of at 2. cbn [flat_map]. fold (outputs_of (messages_before_fault rest)).
    assert (Hstep : delivered (step r wallet_data) = (delivered r ++ output_of wallet_data)%list
                    /\ (total_produced (stats (step r wallet_data))
                        - total_produced (stats r)
                        = total_scored (stats (step r wallet_data))
                          - total_scored (stats r))%Z).
    { unfold consume_one, output_of, produce.
      destruct (score_wallet wallet_data) as [score | e]; cbn.
      - destruct (Hsend (List.length (attempted r)) (wallet_of wallet_data, score))
          as [u ->]. cbn. split; [reflexivity | lia].
      - rewrite app_nil_r. split; [reflexivity | lia]. }
    destruct Hstep as [Hd1 Hp1]. rewrite Hd1, app_assoc. split; [reflexivity | lia].
  - cbn. rewrite app_nil_r. split; [reflexivity | lia].
Qed.

End ConsumeProperties.

Definition score_by_rows (wallet_data : WalletMessage) : result Q :=
  match preprocess_dex_transactions wallet_data with
  | [] => Raise "no rows"
  | _ :: _ => Ok 1
  end.

Definition send_fails (n : nat) (message : option string * Q) : result unit :=
  Raise "broker unavailable".

Lemma consume_send_failure_swallowed_witness :
  score_by_rows SAMPLE_WALLET_MESSAGE = Ok 1
  /\ total_produced
       (stats (consume_one WalletMessage Q (fun w => get (wallet_address w))
                           score_by_rows send_fails fresh_runner SAMPLE_WALLET_MESSAGE))
     = 0%Z
  /\ total_scored
       (stats (consume_one WalletMessage Q (fun w => get (wallet_address w))
                           score_by_rows send_fails fresh_runner SAMPLE_WALLET_MESSAGE))
     = 1%Z.
Proof.
  split; [reflexivity|].
  pose proof (consume_send_failure_swallowed
                WalletMessage Q (fun w => get (wallet_address w)) score_by_rows send_fails
                fresh_runner SAMPLE_WALLET_MESSAGE 1 "broker unavailable" []
                eq_refl eq_refl) as H.
  cbv zeta in H. destruct H as (Hs & _ & Hp & _).
  split; [exact Hp | exact Hs].
Defined.

Lemma consume_reliable_transport_witness :
  delivered
    (fst (consume WalletMessage Q (fun w => get (wallet_address w)) score_by_rows send_ok
                  fresh_runner
                  [Msg SAMPLE_WALLET_MESSAGE; Msg non_dex_only_message;
                   Msg transfer_message]))
  = (delivered fresh_runner
     ++ outputs_of WalletMessage Q (fun w => get (wallet_address w)) score_by_rows
          (messages_before_fault WalletMessage
             [Msg SAMPLE_WALLET_MESSAGE; Msg non_dex_only_message;
              Msg transfer_message]))%list.
Proof.
  apply (consume_reliable_transport
           WalletMessage Q (fun w => get (wallet_address w)) score_by_rows send_ok
           fresh_runner
           [Msg SAMPLE_WALLET_MESSAGE; Msg non_dex_only_message; Msg transfer_message]).
  intros n message. exists tt. reflexivity.
Defined.

(** ** The counters object *)







(** ** Tighter range of the final score *)

(** X22: With no negative [amount_usd] and no deposit stamped after the clock
    reading, the final score is at most 920 = 0.6 x 1000 + 0.4 x 800: the
    swap components add up to 800 at most. *)
Theorem final_score_at_most_920 (current_time : Q) (wallet_data : WalletMessage) :
  amounts_nonneg (preprocess_dex_transactions wallet_data) = true ->
  deposits_not_after current_time (preprocess_dex_transactions wallet_data) = true ->
  match process_wallet_complete current_time wallet_data with
  | Ok (z, _, _) => z <= 920
  | Raise _ => False
  end.
Proof.
  intros Hamt Hdep.
  destruct (preprocess_dex_transactions wallet_data) as [|first rest] eqn:Hdf.
  - rewrite (process_wallet_complete_nil _ _ Hdf). discriminate.
  - rewrite (process_wallet_complete_cons _ _ _ _ Hdf).
    apply (scored_in_range _ _ _ Hamt Hdep).
Qed.

Lemma final_score_at_most_920_witness :
  match process_wallet_complete 1704000000 SAMPLE_WALLET_MESSAGE with
  | Ok (z, _, _) => z <= 920
  | Raise _ => False
  end.
Proof.
  apply (final_score_at_most_920 1704000000 SAMPLE_WALLET_MESSAGE); reflexivity.
Defined.

Definition withdrawn_in_full : DataFrame :=
  [row_at "deposit" 0; row_at "withdraw" 86400].

Lemma full_withdrawal_zero_retention_witness :
  match calculate_lp_features 172800 withdrawn_in_full with
  | Ok (Some f) =>
      0 < total_deposit_usd f
      /\ total_deposit_usd f <= total_withdraw_usd f
      /\ match snd (calculate_lp_score (Some f)) with
         | Some b => lp_retention_score b == 0
         | None => False
         end
  | _ => False
  end.
Proof.
  pose proof (full_withdrawal_zero_retention 172800 withdrawn_in_full) as H.
  destruct (calculate_lp_features 172800 withdrawn_in_full) as [[f|]|] eqn:E;
    [|discriminate E|discriminate E].
  injection E as <-.
  assert (H1 : 0 < 100) by reflexivity.
  assert (H2 : 100 <= 100) by discriminate.
  split; [exact H1|]. split; [exact H2|]. exact (H H1 H2).
Defined.
